(** * Summary notes over a CRM engagement store

    A shallow embedding of the four tool handlers of the HubSpot MCP server
    (create, list, update, delete of summary notes) and of the decision logic
    they contain: the note-body codec, the merge on update, the filter
    pipeline (date, day of week, time of day, sort, limit) and the resolution
    of the record an update or a delete acts on.

    Layout: the fragment of the ECMAScript runtime the handlers rely on
    ([Module JS]), the HTTP vocabulary and the handler programs, then the
    facts proved about them. *)

From Stdlib Require Import ZArith List String Ascii Bool Lia.
From Stdlib Require Import Permutation Sorted DecimalString.
Import ListNotations.

Local Open Scope string_scope.
Local Open Scope Z_scope.

(* ================================================================== *)
(** * The ECMAScript fragment used by the handlers *)
(* ================================================================== *)

(** Text is modelled as Rocq strings (sequences of 8-bit characters); the
    string primitives below are the ECMAScript ones restricted to that
    alphabet.  Numbers that the handlers manipulate (timestamps, limits,
    status codes) are integers and are modelled in [Z]. *)
Module JS.

(** ** Strings *)

(** [ToBoolean] on a string: only the empty string is falsy. *)
Definition nonempty (s : string) : bool :=
  match s with EmptyString => false | String _ _ => true end.

(** [ToBoolean] on an optional string argument ([undefined] is falsy). *)
Definition truthy (o : option string) : bool :=
  match o with Some s => nonempty s | None => false end.

(** [a || b] where [a] is an optional string and [b] a string. *)
Definition or_else (a : option string) (b : string) : string :=
  match a with
  | Some s => if nonempty s then s else b
  | None => b
  end.

(** [s.startsWith(p)] *)
Definition startsWith (p s : string) : bool := String.prefix p s.

(** [s.includes(sub)]: [sub] occurs at some position of [s]. *)
Fixpoint includes (sub s : string) : bool :=
  String.prefix sub s
  || match s with
     | EmptyString => false
     | String _ s' => includes sub s'
     end.

(** Drop the first [n] characters. *)
Fixpoint drop (n : nat) (s : string) : string :=
  match n, s with
  | O, _ => s
  | S _, EmptyString => EmptyString
  | S n', String _ s' => drop n' s'
  end.

(** [s.replace(pat, rep)] with a string pattern: the first occurrence of
    [pat] is replaced, the rest of [s] is kept.  (The [$]-patterns of the
    replacement text are not modelled: the handlers only replace by the
    empty string.) *)
Fixpoint replace (pat rep s : string) : string :=
  if String.prefix pat s then rep ++ drop (String.length pat) s
  else match s with
       | EmptyString => EmptyString
       | String c s' => String c (replace pat rep s')
       end.

Definition newline : ascii := Ascii.ascii_of_nat 10.

Definition LF : string := String newline EmptyString.

(** [s.split("\n")]: never empty; [n] separators give [n + 1] pieces. *)
Fixpoint split_lines (s : string) : list string :=
  match s with
  | EmptyString => [EmptyString]
  | String c s' =>
      if Ascii.eqb c newline then EmptyString :: split_lines s'
      else match split_lines s' with
           | [] => [String c EmptyString]
           | l :: ls => String c l :: ls
           end
  end.

(** No newline character occurs in [s]. *)
Fixpoint no_newline (s : string) : bool :=
  match s with
  | EmptyString => true
  | String c s' => negb (Ascii.eqb c newline) && no_newline s'
  end.

Definition lower_char (c : ascii) : ascii :=
  let n := Ascii.nat_of_ascii c in
  if (Nat.leb 65 n && Nat.leb n 90)%bool then Ascii.ascii_of_nat (n + 32)
  else c.

(** The case mapping of the ASCII letters: [s.toLowerCase()] for text whose
    letters are ASCII.  The handlers use it through [dayMap[...]] only, where
    it decides the same lookups as the function of the runtime: the keys of
    [dayMap] and of [Object.prototype] are ASCII, and no other character is
    lowered to a character of one of them.  The search by query, which
    lowers arbitrary text, takes the function of the runtime as a
    parameter (see [matchesQuery]). *)
Fixpoint toLowerCase (s : string) : string :=
  match s with
  | EmptyString => EmptyString
  | String c s' => String (lower_char c) (toLowerCase s')
  end.

(** [a <= b] and [a >= b] on strings: lexicographic on character codes. *)
Definition str_le (a b : string) : bool := String.leb a b.
Definition str_ge (a b : string) : bool := String.leb b a.

(** [n.toString()] for an integer. *)
Definition toString (n : Z) : string := NilZero.string_of_int (Z.to_int n).

Fixpoint repeat_char (c : ascii) (n : nat) : string :=
  match n with
  | O => EmptyString
  | S n' => String c (repeat_char c n')
  end.

(** [s.padStart(n, fill)] for a one-character filler [fill]. *)
Definition padStart (n : nat) (fill : ascii) (s : string) : string :=
  repeat_char fill (n - String.length s) ++ s.

(** [xs.join(sep)] *)
Fixpoint join (sep : string) (xs : list string) : string :=
  match xs with
  | [] => EmptyString
  | [x] => x
  | x :: rest => x ++ sep ++ join sep rest
  end.

(** ** Numbers that may be [undefined] or [NaN] *)

(** [ToBoolean] on an optional integer: [undefined] and [0] are falsy. *)
Definition truthy_num (o : option Z) : bool :=
  match o with Some n => negb (n =? 0) | None => false end.

(** [o > k] and [o < k]; comparisons with [undefined] are false. *)
Definition num_gt (o : option Z) (k : Z) : bool :=
  match o with Some n => k <? n | None => false end.
Definition num_lt (o : option Z) (k : Z) : bool :=
  match o with Some n => n <? k | None => false end.

(** ** Property lookup on an object literal *)

(** The values a lookup [obj[key]] on the literal of a string-to-number
    table can produce: a number (an own property), [undefined], or one of
    the members every object inherits from [Object.prototype]. *)
Inductive value : Type :=
| Undefined
| Number (n : Z)
| Inherited (member : string).

(** The property names of [Object.prototype]. *)
Definition Object_prototype : list string :=
  [ "constructor"; "__defineGetter__"; "__defineSetter__"; "hasOwnProperty";
    "__lookupGetter__"; "__lookupSetter__"; "isPrototypeOf";
    "propertyIsEnumerable"; "toString"; "valueOf"; "__proto__";
    "toLocaleString" ].

Fixpoint own_property (own : list (string * Z)) (key : string) : option Z :=
  match own with
  | [] => None
  | (k, v) :: rest => if String.eqb k key then Some v else own_property rest key
  end.

Fixpoint mem_string (key : string) (l : list string) : bool :=
  match l with
  | [] => false
  | k :: rest => String.eqb k key || mem_string key rest
  end.

(** [obj[key]] for an object literal with own properties [own]: own
    properties first, then the prototype chain. *)
Definition get (own : list (string * Z)) (key : string) : value :=
  match own_property own key with
  | Some n => Number n
  | None => if mem_string key Object_prototype then Inherited key else Undefined
  end.

(** [v === undefined] *)
Definition is_undefined (v : value) : bool :=
  match v with Undefined => true | _ => false end.

(** [n === v] for a number [n] that may be [NaN] ([None]). *)
Definition strict_eq (n : option Z) (v : value) : bool :=
  match n, v with
  | Some a, Number b => a =? b
  | _, _ => false
  end.

(** ** Dates *)

Definition msPerDay : Z := 86400000.
Definition msPerHour : Z := 3600000.
Definition msPerMinute : Z := 60000.

(** A time value is a valid [Date] when it is within 8.64e15 ms of the
    epoch ([TimeClip]). *)
Definition valid_time (t : Z) : bool := Z.abs t <=? 8640000000000000.

Definition Day (t : Z) : Z := t / msPerDay.
Definition WeekDay (t : Z) : Z := (Day t + 4) mod 7.
Definition HourFromTime (t : Z) : Z := (t / msPerHour) mod 24.
Definition MinFromTime (t : Z) : Z := (t / msPerMinute) mod 60.

(** Year, month (1..12) and day of the month (1..31) of the proleptic
    Gregorian calendar for a day number counted from 1970-01-01. *)
Definition civil_from_days (days : Z) : Z * Z * Z :=
  let z := days + 719468 in
  let era := z / 146097 in
  let doe := z - era * 146097 in
  let yoe := (doe - doe / 1460 + doe / 36524 - doe / 146096) / 365 in
  let doy := doe - (365 * yoe + yoe / 4 - yoe / 100) in
  let mp := (5 * doy + 2) / 153 in
  let d := doy - (153 * mp + 2) / 5 + 1 in
  let m := if mp <? 10 then mp + 3 else mp - 9 in
  let y := yoe + era * 400 + (if m <=? 2 then 1 else 0) in
  (y, m, d).

Definition zero : ascii := Ascii.ascii_of_nat 48.

Definition pad_digits (n : nat) (v : Z) : string := padStart n zero (toString v).

(** The year field of [toISOString]: four digits for 0..9999, otherwise a
    sign and six digits. *)
Definition iso_year (y : Z) : string :=
  if (0 <=? y) && (y <=? 9999) then pad_digits 4 y
  else (if y <? 0 then "-" else "+") ++ pad_digits 6 (Z.abs y).

(** [new Date(t).toISOString().split("T")[0]]: the UTC calendar date
    [YYYY-MM-DD]; [None] when [toISOString] throws a [RangeError] (invalid
    date). *)
Definition isoDate (t : Z) : option string :=
  if valid_time t then
    let '(y, m, d) := civil_from_days (Day t) in
    Some (iso_year y ++ "-" ++ pad_digits 2 m ++ "-" ++ pad_digits 2 d)
  else None.

Section LocalTime.
(** The offset of local time from UTC, in milliseconds, at a given UTC
    instant: the time zone of the server process. *)
Variable LocalTZA : Z -> Z.

Definition LocalTime (t : Z) : Z := t + LocalTZA t.

(** [new Date(t).getDay()], [.getHours()], [.getMinutes()]; [None] is
    [NaN] (invalid date). *)
Definition getDay (t : Z) : option Z :=
  if valid_time t then Some (WeekDay (LocalTime t)) else None.
Definition getHours (t : Z) : option Z :=
  if valid_time t then Some (HourFromTime (LocalTime t)) else None.
Definition getMinutes (t : Z) : option Z :=
  if valid_time t then Some (MinFromTime (LocalTime t)) else None.
End LocalTime.

(** ** Arrays *)

(** [xs.filter(p)] for a callback that may throw: elements are visited in
    order and the first exception aborts the traversal. *)
Fixpoint filter_throw {A E : Type} (p : A -> E + bool) (xs : list A) : E + list A :=
  match xs with
  | [] => inr []
  | x :: rest =>
      match p x with
      | inl e => inl e
      | inr b =>
          match filter_throw p rest with
          | inl e => inl e
          | inr ys => inr (if b then x :: ys else ys)
          end
      end
  end.

(** Insertion of [x] in front of the first element it does not have to
    follow: [cmp x y <= 0] means [x] may stay before [y]. *)
Fixpoint insert {A : Type} (cmp : A -> A -> Z) (x : A) (xs : list A) : list A :=
  match xs with
  | [] => [x]
  | y :: rest => if cmp x y <=? 0 then x :: y :: rest else y :: insert cmp x rest
  end.

(** [xs.sort(cmp)]: the sort is stable (ECMAScript 2019; the Dockerfile
    runs Node 22), so for a consistent comparator its result is the one of any
    stable sort; here a stable insertion sort. *)
Fixpoint sort {A : Type} (cmp : A -> A -> Z) (xs : list A) : list A :=
  match xs with
  | [] => []
  | x :: rest => insert cmp x (sort cmp rest)
  end.

(** [xs.slice(0, n)] for an integer [n]: a negative [n] counts from the
    end. *)
Definition slice0 {A : Type} (n : Z) (xs : list A) : list A :=
  if n <? 0 then firstn (List.length xs - Z.to_nat (- n)) xs
  else firstn (Z.to_nat n) xs.

End JS.

(* ================================================================== *)
(** * The engagement store seen through HTTP *)
(* ================================================================== *)

(** One engagement as the handlers read it from the store's JSON:
    [engagement.id], [engagement.timestamp] (milliseconds since the epoch)
    and [metadata.body], which may be missing.  Identifiers are opaque text. *)
Record Note : Type := mkNote {
  engagement_id : string;
  engagement_timestamp : Z;
  metadata_body : option string
}.

(** The five calls the handlers make on
    [https://api.hubapi.com/engagements/v1/engagements]; every one carries
    the bearer token of the configuration. *)
Inductive Request : Type :=
| GET_paged                                   (* GET  .../paged?limit=100 *)
| GET_engagement (id : string)                (* GET  .../{id} *)
| POST_engagement (timestamp : Z) (contact : option Z) (body : string)
                                              (* POST, a NOTE for [contactIds: [contact]];
                                                 [None] is written [null] *)
| PUT_engagement (id : string) (body : string)    (* PUT  .../{id} *)
| DELETE_engagement (id : string).            (* DELETE .../{id} *)

(** What the handlers read of a response: [res.ok], [res.status], and of its
    JSON [data.message], [data.results] and the single engagement
    ([data.engagement], [data.metadata]). *)
Record Response : Type := mkResponse {
  ok : bool;
  status : Z;
  message : string;
  results : list Note;
  record : Note
}.

(** The exceptions raised inside the handlers' [try] blocks. *)
Inductive Exn : Type :=
| HttpError (code : Z) (msg : string)   (* a response that is not [ok] *)
| InvalidDayOfWeek (dayOfWeek : string) (* unknown day name *)
| LimitNotPositive                      (* listing with a limit below 1 *)
| NoQueryMatch                          (* update: no note contains the query *)
| NoFilterMatch                         (* delete: no note passes the filters *)
| NoTarget                              (* update: neither id nor query *)
| RangeError                            (* [toISOString] of an invalid date *)
| TypeError.                            (* [split] of a missing body *)

(** [error.message] *)
Definition error_message (e : Exn) : string :=
  match e with
  | HttpError code msg =>
      "HTTP-Code: " ++ JS.toString code ++ JS.LF ++ "Message: " ++ msg
  | InvalidDayOfWeek d => "Invalid dayOfWeek provided: " ++ d
  | LimitNotPositive => "Limit must be a positive number greater than 0"
  | NoQueryMatch => "No summary found matching the provided query."
  | NoFilterMatch => "No summary found matching the provided filters."
  | NoTarget =>
      "Please provide an Engagement ID or a search query to locate the summary note."
  | RangeError => "Invalid time value"
  | TypeError => "Cannot read properties of undefined (reading 'split')"
  end.

(** ** Handler programs

    An [async] handler is a tree of the requests it awaits: each
    [await fetch(...)] is a [Fetch] node whose continuation receives the
    response, [new Date().getTime()] is a [Clock] node, [throw] is [Throw]. *)
Inductive Prog (A : Type) : Type :=
| Ret (a : A)
| Throw (e : Exn)
| Fetch (rq : Request) (k : Response -> Prog A)
| Clock (k : Z -> Prog A).

Arguments Ret {A} a.
Arguments Throw {A} e.
Arguments Fetch {A} rq k.
Arguments Clock {A} k.

Fixpoint bind {A B : Type} (p : Prog A) (f : A -> Prog B) : Prog B :=
  match p with
  | Ret a => f a
  | Throw e => Throw e
  | Fetch rq k => Fetch rq (fun r => bind (k r) f)
  | Clock k => Clock (fun t => bind (k t) f)
  end.

(** [try { p } catch (error) { h error }] *)
Fixpoint try_catch {A : Type} (p : Prog A) (h : Exn -> Prog A) : Prog A :=
  match p with
  | Ret a => Ret a
  | Throw e => h e
  | Fetch rq k => Fetch rq (fun r => try_catch (k r) h)
  | Clock k => Clock (fun t => try_catch (k t) h)
  end.

(** A pure step that may throw. *)
Definition liftE {A : Type} (r : Exn + A) : Prog A :=
  match r with inl e => Throw e | inr a => Ret a end.

Definition fetch (rq : Request) : Prog Response := Fetch rq Ret.

Definition getTime : Prog Z := Clock Ret.

Notation "x <- p ;; q" := (bind p (fun x => q))
  (at level 61, p at next level, right associativity).

(** ** Tool results *)

(** The text of a result: a message, or the rendering
    [JSON.stringify(results, null, 2)] of a list of engagements. *)
Inductive Content : Type :=
| Text (s : string)
| Json (rs : list Note).

(** [{ content: [{ type: "text", text }], isError }]; [isError] is absent
    (falsy) on success. *)
Record ToolResult : Type := mkResult {
  content : Content;
  isError : bool
}.

Definition success (c : Content) : ToolResult := mkResult c false.
Definition failure (text : string) : ToolResult := mkResult (Text text) true.

(** ** Configuration *)

(** The two environment variables, read as [process.env.X || ""]. *)
Record Config : Type := mkConfig {
  HUBSPOT_ACCESS_TOKEN : string;
  SHARED_CONTACT_ID : string
}.

Definition checkHubSpotConfig (env : Config) : list string :=
  (if negb (JS.nonempty (HUBSPOT_ACCESS_TOKEN env)) then ["HUBSPOT_ACCESS_TOKEN"] else [])
  ++ (if negb (JS.nonempty (SHARED_CONTACT_ID env)) then ["SHARED_CONTACT_ID"] else []).

(** The frame every handler has: with a variable missing it answers at
    once; otherwise it runs its [try] block, and its [catch] turns any
    exception into an error result whose text is [render error]. *)
Definition guarded (env : Config) (body : Prog ToolResult)
  (render : Exn -> string) : Prog ToolResult :=
  let missing := checkHubSpotConfig env in
  if (0 <? List.length missing)%nat then
    Ret (failure ("Error: Missing required environment variables: "
                  ++ JS.join ", " missing))
  else
    try_catch body (fun error => Ret (failure (render error))).

(** [if (!res.ok) throw new Error(`HTTP-Code: ...`)] *)
Definition check_ok (res : Response) : Prog unit :=
  if negb (ok res) then Throw (HttpError (status res) (message res)) else Ret tt.

(** The text of an optional argument once it is known to be truthy. *)
Definition text (o : option string) : string :=
  match o with Some s => s | None => EmptyString end.

(** The number of an optional argument once it is known to be truthy. *)
Definition num (o : option Z) : Z :=
  match o with Some n => n | None => 0 end.

(* ================================================================== *)
(** * Note bodies: the codec and the merge *)
(* ================================================================== *)

(** The template [`Title: ${title}\nSummary: ${summary}\nAuthor: ${author}`]
    of [createSharedSummary] ([noteBody]) and of [updateSharedSummary]
    ([updatedBody]). *)
Definition noteBody (title summary author : string) : string :=
  "Title: " ++ title ++ JS.LF ++ "Summary: " ++ summary ++ JS.LF
  ++ "Author: " ++ author.

(** The three variables the parser of [updateSharedSummary] assigns. *)
Record Fields : Type := mkFields {
  currentTitle : string;
  currentSummary : string;
  currentAuthor : string
}.

(** The body of the [forEach] callback: one line against the three labels. *)
Definition parseLine (cur : Fields) (line : string) : Fields :=
  if JS.startsWith "Title: " line then
    mkFields (JS.replace "Title: " "" line) (currentSummary cur) (currentAuthor cur)
  else if JS.startsWith "Summary: " line then
    mkFields (currentTitle cur) (JS.replace "Summary: " "" line) (currentAuthor cur)
  else if JS.startsWith "Author: " line then
    mkFields (currentTitle cur) (currentSummary cur) (JS.replace "Author: " "" line)
  else cur.

(** [currentBody.split("\n").forEach(...)], starting from three empty
    fields. *)
Definition parseBody (currentBody : string) : Fields :=
  fold_left parseLine (JS.split_lines currentBody) (mkFields "" "" "").

(** [title || currentTitle], [summary || currentSummary],
    [author || currentAuthor]. *)
Definition newTitle (title : option string) (cur : Fields) : string :=
  JS.or_else title (currentTitle cur).
Definition newSummary (summary : option string) (cur : Fields) : string :=
  JS.or_else summary (currentSummary cur).
Definition newAuthor (author : option string) (cur : Fields) : string :=
  JS.or_else author (currentAuthor cur).

Definition updatedBody (title summary author : option string) (cur : Fields)
  : string :=
  noteBody (newTitle title cur) (newSummary summary cur) (newAuthor author cur).

(* ================================================================== *)
(** * createSharedSummary *)
(* ================================================================== *)

Section Create.

(** [parseInt] of the runtime, applied to the text of [SHARED_CONTACT_ID]:
    the integer it reads at the start of the text, or [None] when the result
    is not a finite number ([NaN]), which [JSON.stringify] writes as
    [null]. *)
Variable parseInt : string -> option Z.

Definition createSharedSummary (env : Config) (title summary author : string)
  : Prog ToolResult :=
  guarded env
    (now <- getTime ;;
     res <- fetch (POST_engagement now (parseInt (SHARED_CONTACT_ID env))
                     (noteBody title summary author)) ;;
     _ <- check_ok res ;;
     Ret (success (Text ("Summary created successfully. Engagement ID: "
                         ++ engagement_id (record res)))))
    (fun error =>
       "Error creating summary: "
       ++ JS.or_else (Some (error_message error)) "Unknown error").

End Create.

(* ================================================================== *)
(** * updateSharedSummary *)
(* ================================================================== *)

(** The comparator [(a, b) => b.engagement.timestamp - a.engagement.timestamp]. *)
Definition byTimestampDesc (a b : Note) : Z :=
  engagement_timestamp b - engagement_timestamp a.

Section Update.

(** [String.prototype.toLowerCase] of the runtime, on whatever text the
    query and the bodies hold (letters outside ASCII included). *)
Variable toLowerCase : string -> string.

(** The callback of [data.results.filter] in the search by query:
    [(record.metadata.body || "").toLowerCase().includes(query.toLowerCase())]. *)
Definition matchesQuery (query : string) (record : Note) : bool :=
  let body := JS.or_else (metadata_body record) "" in
  JS.includes (toLowerCase query) (toLowerCase body).

(** The choice of [targetId]: the given id, or else the newest note whose
    body contains the query; an error when there is neither. *)
Definition updateTarget (id query : option string) : Prog string :=
  targetId <-
    (if negb (JS.truthy id) && JS.truthy query then
       res <- fetch GET_paged ;;
       _ <- check_ok res ;;
       let candidates := filter (matchesQuery (text query)) (results res) in
       let candidates := JS.sort byTimestampDesc candidates in
       match candidates with
       | [] => Throw NoQueryMatch
       | first :: _ => Ret (Some (engagement_id first))
       end
     else Ret id) ;;
  if negb (JS.truthy targetId) then Throw NoTarget else Ret (text targetId).

Definition updateSharedSummary (env : Config)
  (id query title summary author : option string) : Prog ToolResult :=
  guarded env
    (targetId <- updateTarget id query ;;
     getRes <- fetch (GET_engagement targetId) ;;
     _ <- check_ok getRes ;;
     match metadata_body (record getRes) with
     | None => Throw TypeError
     | Some currentBody =>
         let cur := parseBody currentBody in
         resUpdate <- fetch (PUT_engagement targetId
                               (updatedBody title summary author cur)) ;;
         _ <- check_ok resUpdate ;;
         Ret (success (Text ("Summary updated successfully. Engagement ID: "
                             ++ engagement_id (record resUpdate))))
     end)
    (fun error => "Error updating summary: " ++ error_message error).

(** The method of the single-file server has the same body without the log
    lines. *)
Definition handleUpdateSharedSummary (env : Config)
  (id query title summary author : option string) : Prog ToolResult :=
  updateSharedSummary env id query title summary author.

End Update.

(* ================================================================== *)
(** * The filter pipeline of getSummaries and handleDeleteSharedSummary *)
(* ================================================================== *)

(** [timeRange]: [{ start, end }] (a missing bound reads as the empty
    string, which is as falsy as [undefined]). *)
Record TimeRange : Type := mkTimeRange {
  start : string;
  end_ : string
}.

(** The literal [dayMap]. *)
Definition dayMap : list (string * Z) :=
  [ ("sunday", 0); ("monday", 1); ("tuesday", 2); ("wednesday", 3);
    ("thursday", 4); ("friday", 5); ("saturday", 6) ].

Section Pipeline.

(** The time zone of the server process. *)
Variable LocalTZA : Z -> Z.

(** [if (date) results = results.filter(...)]: the UTC calendar date of the
    timestamp must be the text [date]. *)
Definition filterByDate (date : option string) (results : list Note)
  : Exn + list Note :=
  if JS.truthy date then
    JS.filter_throw
      (fun record =>
         let ts := engagement_timestamp record in
         match JS.isoDate ts with
         | None => inl RangeError
         | Some day => inr (String.eqb day (text date))
         end)
      results
  else inr results.

(** [if (dayOfWeek) { ... }]: look the lowered name up in [dayMap], throw
    when the lookup is [undefined], otherwise keep the records whose local
    weekday is strictly equal to the value found. *)
Definition filterByDayOfWeek (dayOfWeek : option string) (results : list Note)
  : Exn + list Note :=
  if JS.truthy dayOfWeek then
    let targetDay := JS.get dayMap (JS.toLowerCase (text dayOfWeek)) in
    if JS.is_undefined targetDay then inl (InvalidDayOfWeek (text dayOfWeek))
    else
      inr (filter
             (fun record =>
                let ts := engagement_timestamp record in
                JS.strict_eq (JS.getDay LocalTZA ts) targetDay)
             results)
  else inr results.

(** [pad = n => n.toString().padStart(2, "0")]; [NaN] prints as ["NaN"]. *)
Definition pad (n : option Z) : string :=
  match n with
  | Some v => JS.padStart 2 JS.zero (JS.toString v)
  | None => "NaN"
  end.

(** [`${pad(dateObj.getHours())}:${pad(dateObj.getMinutes())}`] *)
Definition currentTime (ts : Z) : string :=
  pad (JS.getHours LocalTZA ts) ++ ":" ++ pad (JS.getMinutes LocalTZA ts).

(** The callback of the time filter:
    [currentTime >= timeRange.start && currentTime <= timeRange.end]. *)
Definition inTimeRange (tr : TimeRange) (record : Note) : bool :=
  let ts := engagement_timestamp record in
  JS.str_ge (currentTime ts) (start tr) && JS.str_le (currentTime ts) (end_ tr).

(** [if (timeRange && timeRange.start && timeRange.end) { ... }] *)
Definition filterByTimeRange (timeRange : option TimeRange) (results : list Note)
  : list Note :=
  match timeRange with
  | Some tr =>
      if JS.nonempty (start tr) && JS.nonempty (end_ tr)
      then filter (inTimeRange tr) results
      else results
  | None => results
  end.

(** The three filters in the order of the source. *)
Definition applyFilters (date dayOfWeek : option string)
  (timeRange : option TimeRange) (results : list Note) : Exn + list Note :=
  match filterByDate date results with
  | inl e => inl e
  | inr results =>
      match filterByDayOfWeek dayOfWeek results with
      | inl e => inl e
      | inr results => inr (filterByTimeRange timeRange results)
      end
  end.

(** The filters, then
    [results.sort((a, b) => b.engagement.timestamp - a.engagement.timestamp)]. *)
Definition filterAndSort (date dayOfWeek : option string)
  (timeRange : option TimeRange) (results : list Note) : Exn + list Note :=
  match applyFilters date dayOfWeek timeRange results with
  | inl e => inl e
  | inr results => inr (JS.sort byTimestampDesc results)
  end.

(** The end of [getSummaries]:
    [if (limit && limit > 0) slice else if (limit && limit < 1) throw].
    The limit is an integer, as the schema of the tool declares it. *)
Definition applyLimit (limit : option Z) (results : list Note)
  : Exn + list Note :=
  if JS.truthy_num limit && JS.num_gt limit 0 then
    inr (JS.slice0 (num limit) results)
  else if JS.truthy_num limit && JS.num_lt limit 1 then inl LimitNotPositive
  else inr results.

(** What [getSummaries] computes from the page it fetched. *)
Definition selectSummaries (date dayOfWeek : option string) (limit : option Z)
  (timeRange : option TimeRange) (page : list Note) : Exn + list Note :=
  match filterAndSort date dayOfWeek timeRange page with
  | inl e => inl e
  | inr results => applyLimit limit results
  end.

Definition getSummaries (env : Config) (date dayOfWeek : option string)
  (limit : option Z) (timeRange : option TimeRange) : Prog ToolResult :=
  guarded env
    (res <- fetch GET_paged ;;
     _ <- check_ok res ;;
     results <- liftE (selectSummaries date dayOfWeek limit timeRange (results res)) ;;
     Ret (success (Json results)))
    (fun error => "Error retrieving summaries: " ++ error_message error).

(** [const n = (limit && limit > 0) ? limit : 1] *)
Definition deleteCount (limit : option Z) : Z :=
  if JS.truthy_num limit && JS.num_gt limit 0 then num limit else 1.

(** What [handleDeleteSharedSummary] computes from the page when no id is
    given: the id of the first of the [n] newest records that pass the
    filters. *)
Definition selectDeleteTarget (date dayOfWeek : option string) (limit : option Z)
  (timeRange : option TimeRange) (page : list Note) : Exn + string :=
  match filterAndSort date dayOfWeek timeRange page with
  | inl e => inl e
  | inr results =>
      let n := deleteCount limit in
      let candidate := JS.slice0 n results in
      match candidate with
      | [] => inl NoFilterMatch
      | first :: _ => inr (engagement_id first)
      end
  end.

Definition handleDeleteSharedSummary (env : Config) (id date dayOfWeek : option string)
  (limit : option Z) (timeRange : option TimeRange) : Prog ToolResult :=
  guarded env
    (targetId <-
       (if negb (JS.truthy id) then
          res <- fetch GET_paged ;;
          _ <- check_ok res ;;
          liftE (selectDeleteTarget date dayOfWeek limit timeRange (results res))
        else Ret (text id)) ;;
     resDelete <- fetch (DELETE_engagement targetId) ;;
     _ <- check_ok resDelete ;;
     Ret (success (Text ("Summary deleted successfully. Engagement ID: " ++ targetId))))
    (fun error => "Error deleting summary: " ++ error_message error).

End Pipeline.

(* ================================================================== *)
(** * Running a handler against a store *)
(* ================================================================== *)

(** A store answers each request and may change state doing so; it also owns
    the clock. *)
Record Store (W : Type) : Type := mkStore {
  serve : Request -> W -> Response * W;
  tick : W -> Z * W
}.

Arguments serve {W} s rq w.
Arguments tick {W} s w.

(** [run store p w]: the value [p] returns or the exception that escapes it,
    the requests it sent in order, and the state it leaves the store in. *)
Fixpoint run {W A : Type} (store : Store W) (p : Prog A) (w : W)
  : (Exn + A) * list Request * W :=
  match p with
  | Ret a => (inr a, [], w)
  | Throw e => (inl e, [], w)
  | Fetch rq k =>
      let '(res, w1) := serve store rq w in
      let '(out, sent, w2) := run store (k res) w1 in
      (out, rq :: sent, w2)
  | Clock k =>
      let '(t, w1) := tick store w in
      run store (k t) w1
  end.

Definition is_delete (rq : Request) : bool :=
  match rq with DELETE_engagement _ => true | _ => false end.

Definition is_page_fetch (rq : Request) : bool :=
  match rq with GET_paged => true | _ => false end.

(* ================================================================== *)
(** * A reference store *)
(* ================================================================== *)

(** Modelled from the spec: the Record Store Gateway (section 6 of the
    specification), an external collaborator of which the repository holds no
    code.  [listPage] returns at most one page of 100 records and changes
    nothing, [getById] fails for an unknown identifier, [create] assigns a
    fresh identifier, [updateBody] replaces the body of one record and
    [delete] removes one record. *)
Record Crm : Type := mkCrm {
  notes : list Note;
  next_id : Z;
  clock : Z
}.

Definition blank : Note := mkNote "" 0 None.

Definition answer (n : Note) : Response := mkResponse true 200 "" [] n.

Definition not_found : Response :=
  mkResponse false 404 "resource not found" [] blank.

Definition has_id (id : string) (n : Note) : bool := String.eqb (engagement_id n) id.

Definition set_body (id body : string) (n : Note) : Note :=
  if has_id id n then mkNote (engagement_id n) (engagement_timestamp n) (Some body)
  else n.

Definition crm_serve (rq : Request) (c : Crm) : Response * Crm :=
  match rq with
  | GET_paged => (mkResponse true 200 "" (firstn 100 (notes c)) blank, c)
  | GET_engagement id =>
      match find (has_id id) (notes c) with
      | Some n => (answer n, c)
      | None => (not_found, c)
      end
  | POST_engagement timestamp _ body =>
      let n := mkNote (JS.toString (next_id c)) timestamp (Some body) in
      (answer n, mkCrm (n :: notes c) (next_id c + 1) (clock c))
  | PUT_engagement id body =>
      match find (has_id id) (notes c) with
      | Some n => (answer (set_body id body n),
                   mkCrm (map (set_body id body) (notes c)) (next_id c) (clock c))
      | None => (not_found, c)
      end
  | DELETE_engagement id =>
      match find (has_id id) (notes c) with
      | Some n => (mkResponse true 204 "" [] blank,
                   mkCrm (filter (fun m => negb (has_id id m)) (notes c))
                         (next_id c) (clock c))
      | None => (not_found, c)
      end
  end.

Definition crm_tick (c : Crm) : Z * Crm :=
  (clock c, mkCrm (notes c) (next_id c) (clock c + 1)).

Definition crm : Store Crm := mkStore Crm crm_serve crm_tick.

(** A store in which the notes are gone by the time they are read one by
    one (another client deleted them meanwhile): it lists the page as the
    reference store does and answers every other request with "not found". *)
Definition stale_serve (rq : Request) (c : Crm) : Response * Crm :=
  match rq with
  | GET_paged => crm_serve rq c
  | _ => (not_found, c)
  end.

Definition stale : Store Crm := mkStore Crm stale_serve crm_tick.

(** A server running on UTC. *)
Definition utc : Z -> Z := fun _ => 0.

(** Sample data: three notes; 2024-03-04 was a Monday, 2024-03-05 a Tuesday. *)
Definition monday_0930 : Z := 1709544600000.
Definition tuesday_0859 : Z := 1709629140000.
Definition tuesday_1001 : Z := 1709632860000.

Definition sample_notes : list Note :=
  [ mkNote "101" monday_0930 (Some (noteBody "Plan" "Budget review" "Ann"));
    mkNote "102" tuesday_1001 (Some (noteBody "Retro" "What went well" "Bob"));
    mkNote "103" tuesday_0859 (Some (noteBody "Sync" "Weekly sync" "Cy")) ].

Definition sample_crm : Crm := mkCrm sample_notes 104 1709700000000.

Definition sample_env : Config := mkConfig "token" "42".

(** The value of the decimal digits at the start of a text. *)
Fixpoint decimal_prefix (acc : Z) (seen : bool) (s : string) : option Z :=
  match s with
  | EmptyString => if seen then Some acc else None
  | String c rest =>
      let n := Ascii.nat_of_ascii c in
      if (Nat.leb 48 n && Nat.leb n 57)%bool
      then decimal_prefix (10 * acc + Z.of_nat (n - 48)) true rest
      else if seen then Some acc else None
  end.

(** A runtime for the samples: [toLowerCase] as it maps text in UTF-8 whose
    letters are ASCII or of the Latin-1 supplement.  The letters A..Z are
    lowered, and so are the capitals U+00C0..U+00DE (the bytes 0x80..0x9E
    after the lead byte 0xC3), the sign U+00D7 excepted; every other byte is
    kept. *)
Fixpoint utf8_lower (after_lead : bool) (s : string) : string :=
  match s with
  | EmptyString => EmptyString
  | String c rest =>
      let n := Ascii.nat_of_ascii c in
      let c' :=
        if after_lead then
          if (Nat.leb 128 n && Nat.leb n 158 && negb (Nat.eqb n 151))%bool
          then Ascii.ascii_of_nat (n + 32) else c
        else JS.lower_char c in
      String c' (utf8_lower (Nat.eqb n 195) rest)
  end.

Definition sample_toLowerCase (s : string) : string := utf8_lower false s.

(** The letters U+00C9 and U+00E9 (E and e with an acute accent) in UTF-8. *)
Definition E_acute : string :=
  String (Ascii.ascii_of_nat 195) (String (Ascii.ascii_of_nat 137) EmptyString).
Definition e_acute : string :=
  String (Ascii.ascii_of_nat 195) (String (Ascii.ascii_of_nat 169) EmptyString).

(** A store with one note whose summary is that lower-case letter. *)
Definition accent_crm : Crm :=
  mkCrm [ mkNote "u" monday_0930 (Some (noteBody "T" e_acute "A")) ] 1 1709700000000.

(** A runtime for the samples: [parseInt] as it reads a text that starts with
    decimal digits (the integer of those digits, exact below 2^53) or with
    any character other than a sign, a blank or a digit (not a number); the
    prefix [0x] of hexadecimal numerals is not read. *)
Definition sample_parseInt (s : string) : option Z := decimal_prefix 0 false s.

(** A note whose body was not written by the template: one free line and an
    author line. *)
Definition foreign_body : string := "free text" ++ JS.LF ++ "Author: Ann".

Definition foreign_crm : Crm :=
  mkCrm [ mkNote "7" monday_0930 (Some foreign_body) ] 8 1709700000000.


(* ================================================================== *)
(** * Vocabulary of the statements *)
(* ================================================================== *)

(** Lexicographic order on character codes, as a relation. *)
Inductive lex_le : string -> string -> Prop :=
| lex_le_empty (s : string) : lex_le EmptyString s
| lex_le_less (c d : ascii) (s t : string) :
    (Ascii.nat_of_ascii c < Ascii.nat_of_ascii d)%nat ->
    lex_le (String c s) (String d t)
| lex_le_same (c : ascii) (s t : string) :
    lex_le s t -> lex_le (String c s) (String c t).

(** [sub] occurs in [s] as a contiguous substring. *)
Definition occurs_in (sub s : string) : Prop :=
  exists before after : string, s = before ++ sub ++ after.

(** [sub] occurs in [s] when case is ignored, that is once both are lowered
    by the function [toLowerCase] of the runtime. *)
Definition occurs_ignoring_case (toLowerCase : string -> string) (sub s : string)
  : Prop :=
  occurs_in (toLowerCase sub) (toLowerCase s).

(** The body text of a record, a missing body reading as empty. *)
Definition body_text (r : Note) : string :=
  match metadata_body r with Some b => b | None => EmptyString end.

(** The merge rule in the words of the specification: the supplied value
    when it is present and non-empty, otherwise the previous one. *)
Definition merged (supplied : option string) (previous : string) : string :=
  match supplied with
  | Some (String c s) => String c s
  | _ => previous
  end.

(** A line that carries one of the three labels. *)
Definition is_label_line (line : string) : bool :=
  JS.startsWith "Title: " line || JS.startsWith "Summary: " line
  || JS.startsWith "Author: " line.

Definition digit (d : Z) : ascii := Ascii.ascii_of_nat (48 + Z.to_nat d).

(** The two-digit, zero-padded rendering of a number below 100. *)
Definition two_digits (v : Z) : string :=
  String (digit (v / 10)) (String (digit (v mod 10)) EmptyString).

(** Newest first. *)
Definition newer_or_same (a b : Note) : Prop :=
  engagement_timestamp b <= engagement_timestamp a.

(** The records created at instant [t]. *)
Definition created_at (t : Z) (r : Note) : bool := engagement_timestamp r =? t.

(** The seven day names and their index, Sunday first. *)
Definition day_names : list string :=
  [ "sunday"; "monday"; "tuesday"; "wednesday"; "thursday"; "friday"; "saturday" ].

(** [name] is the [i]-th day name, case ignored. *)
Definition names_day (name : string) (i : nat) : Prop :=
  nth_error day_names i = Some (JS.toLowerCase name).

Definition result_of {W : Type} (r : (Exn + ToolResult) * list Request * W)
  : Exn + ToolResult := fst (fst r).

Definition requests_of {W A : Type} (r : A * list Request * W) : list Request :=
  snd (fst r).

(* ================================================================== *)
(** * The handlers of the single-file server *)
(* ================================================================== *)

(** [handleCreateSharedSummary] has the body of [createSharedSummary] without
    the log lines. *)
Definition handleCreateSharedSummary (parseInt : string -> option Z)
  (env : Config) (title summary author : string) : Prog ToolResult :=
  createSharedSummary parseInt env title summary author.

(** The last step of [handleGetSummaries]:
    [if (limit && limit > 0) results = results.slice(0, limit)], and nothing
    else. *)
Definition truncate (limit : option Z) (results : list Note) : list Note :=
  if JS.truthy_num limit && JS.num_gt limit 0 then JS.slice0 (num limit) results
  else results.

Section SingleFile.

Variable LocalTZA : Z -> Z.

(** [handleGetSummaries]: the same fetch, filters and sort as [getSummaries],
    then [truncate]. *)
Definition handleGetSummaries (env : Config) (date dayOfWeek : option string)
  (limit : option Z) (timeRange : option TimeRange) : Prog ToolResult :=
  guarded env
    (res <- fetch GET_paged ;;
     _ <- check_ok res ;;
     results <- liftE (filterAndSort LocalTZA date dayOfWeek timeRange (results res)) ;;
     Ret (success (Json (truncate limit results))))
    (fun error => "Error retrieving summaries: " ++ error_message error).

End SingleFile.

(* ================================================================== *)
(** * The tool dispatcher of registerTools *)
(* ================================================================== *)

Module Mcp.

(** [request.params.arguments], an untyped object that the dispatcher casts
    to the argument type of the tool: the fields the four tools read. *)
Record ToolArguments : Type := mkArguments {
  title : option string;
  summary : option string;
  author : option string;
  id : option string;
  query : option string;
  date : option string;
  dayOfWeek : option string;
  limit : option Z;
  timeRange : option TimeRange
}.

(** [request.params] *)
Record Params : Type := mkParams {
  name : option string;
  arguments : option ToolArguments
}.

Record CallToolRequest : Type := mkRequest {
  params : option Params
}.

Inductive ErrorCode : Type := InvalidParams | MethodNotFound.

(** What the call handler does with a request: it throws an [McpError]
    before any handler runs, or it awaits a handler. *)
Inductive Outcome : Type :=
| Rejected (code : ErrorCode) (reason : string)
| Handled (p : Prog ToolResult).

Section CallTool.

(** The runtime: the time zone, [String.prototype.toLowerCase] and
    [parseInt]. *)
Variable LocalTZA : Z -> Z.
Variable toLowerCase : string -> string.
Variable parseInt : string -> option Z.

(** [deleteSharedSummary] of [tools/delete_shared_summary.ts], a file that is
    not among the sources: the dispatcher is modelled for any such handler. *)
Variable deleteSharedSummary :
  Config -> option string -> option string -> option string -> option Z ->
  option TimeRange -> Prog ToolResult.

(** The handler registered for [CallToolRequestSchema]. *)
Definition callTool (env : Config) (request : CallToolRequest) : Outcome :=
  match params request with
  | None => Rejected InvalidParams "No params object in request"
  | Some p =>
      if negb (JS.truthy (name p)) then
        Rejected InvalidParams "No tool name provided"
      else
        match arguments p with
        | None => Rejected InvalidParams "No arguments provided"
        | Some args =>
            let toolName := text (name p) in
            if String.eqb toolName "create_shared_summary" then
              if negb (JS.truthy (title args)) || negb (JS.truthy (summary args))
                 || negb (JS.truthy (author args))
              then Rejected InvalidParams
                     "Missing required arguments: title, summary, and author"
              else Handled (createSharedSummary parseInt env (text (title args))
                              (text (summary args)) (text (author args)))
            else if String.eqb toolName "get_summaries" then
              Handled (getSummaries LocalTZA env (date args) (dayOfWeek args)
                         (limit args) (timeRange args))
            else if String.eqb toolName "update_shared_summary" then
              Handled (updateSharedSummary toLowerCase env (id args) (query args)
                         (title args) (summary args) (author args))
            else if String.eqb toolName "delete_shared_summary" then
              Handled (deleteSharedSummary env (id args) (date args)
                         (dayOfWeek args) (limit args) (timeRange args))
            else Rejected MethodNotFound ("Unknown tool: " ++ toolName)
        end
  end.

End CallTool.

End Mcp.

(* ================================================================== *)
(** * Further vocabulary *)
(* ================================================================== *)

(** The names of the four tools. *)
Definition tool_names : list string :=
  [ "create_shared_summary"; "get_summaries"; "update_shared_summary";
    "delete_shared_summary" ].

(** The requests that only read. *)
Definition is_read (rq : Request) : bool :=
  match rq with GET_paged | GET_engagement _ => true | _ => false end.

Definition is_put (rq : Request) : bool :=
  match rq with PUT_engagement _ _ => true | _ => false end.

Definition is_post (rq : Request) : bool :=
  match rq with POST_engagement _ _ _ => true | _ => false end.

(** The date criterion, when set: the UTC calendar date of the record is the
    given text. *)
Definition date_matches (date : option string) (r : Note) : Prop :=
  JS.truthy date = true -> JS.isoDate (engagement_timestamp r) = Some (text date).

(** The day criterion, when set: the name is a day name and the local weekday
    of the record is its index. *)
Definition day_matches (LocalTZA : Z -> Z) (dayOfWeek : option string) (r : Note)
  : Prop :=
  JS.truthy dayOfWeek = true ->
  exists i, names_day (text dayOfWeek) i
            /\ JS.getDay LocalTZA (engagement_timestamp r) = Some (Z.of_nat i).

(** The time criterion, when both bounds are set: the time of day lies in the
    window. *)
Definition time_matches (LocalTZA : Z -> Z) (timeRange : option TimeRange) (r : Note)
  : Prop :=
  forall tr, timeRange = Some tr ->
             JS.nonempty (start tr) = true -> JS.nonempty (end_ tr) = true ->
             lex_le (start tr) (currentTime LocalTZA (engagement_timestamp r))
             /\ lex_le (currentTime LocalTZA (engagement_timestamp r)) (end_ tr).

(** A zero-padded time of day and its number of minutes since midnight. *)
Definition hhmm (h m : Z) : string := two_digits h ++ ":" ++ two_digits m.

Definition minutes (h m : Z) : Z := 60 * h + m.

(** The local minute of the day of an instant. *)
Definition minute_of_day (LocalTZA : Z -> Z) (ts : Z) : Z :=
  minutes (JS.HourFromTime (JS.LocalTime LocalTZA ts))
          (JS.MinFromTime (JS.LocalTime LocalTZA ts)).

(** All three fields are free of newlines. *)
Definition single_line (f : Fields) : Prop :=
  JS.no_newline (currentTitle f) = true
  /\ JS.no_newline (currentSummary f) = true
  /\ JS.no_newline (currentAuthor f) = true.

(** An optional argument that holds no newline. *)
Definition no_newline_arg (o : option string) : bool := JS.no_newline (text o).

(* ================================================================== *)
(** * Facts about the string primitives *)
(* ================================================================== *)

Module StringFacts.

Lemma append_assoc (a b c : string) : (a ++ b) ++ c = a ++ (b ++ c).
Proof.
  induction a as [|x a IH]; simpl; [reflexivity | now rewrite IH].
Qed.

Lemma append_empty_r (a : string) : a ++ "" = a.
Proof.
  induction a as [|x a IH]; simpl; [reflexivity | now rewrite IH].
Qed.

Lemma prefix_empty (s : string) : String.prefix "" s = true.
Proof. destruct s; reflexivity. Qed.

Lemma prefix_append (p s : string) : String.prefix p (p ++ s) = true.
Proof.
  induction p as [|c p IH]; simpl.
  - apply prefix_empty.
  - destruct (ascii_dec c c) as [_|ne]; [exact IH | now elim ne].
Qed.

Lemma drop_append (p s : string) : JS.drop (String.length p) (p ++ s) = s.
Proof. induction p as [|c p IH]; simpl; [reflexivity | exact IH]. Qed.

(** Replacing a leading label by nothing strips it. *)
Lemma replace_leading (p s : string) : JS.replace p "" (p ++ s) = s.
Proof.
  destruct (p ++ s) as [|c r] eqn:E.
  - destruct p; simpl in E; [now subst | discriminate].
  - rewrite <- E. unfold JS.replace.
    destruct (p ++ s) as [|c' r'] eqn:E'; [discriminate|].
    fold JS.replace. rewrite <- E'. rewrite prefix_append, drop_append.
    reflexivity.
Qed.

(** [prefix] as a statement about concatenation. *)
Lemma prefix_true_iff (p s : string) :
  String.prefix p s = true <-> exists rest, s = p ++ rest.
Proof.
  split.
  - revert s. induction p as [|c p IH]; intros s H.
    + exists s. reflexivity.
    + destruct s as [|d s]; simpl in H; [discriminate|].
      destruct (ascii_dec c d) as [->|]; [|discriminate].
      destruct (IH _ H) as [rest ->]. exists rest. reflexivity.
  - intros [rest ->]. apply prefix_append.
Qed.

(** [includes] finds exactly the contiguous occurrences. *)
Lemma includes_true_iff (sub s : string) :
  JS.includes sub s = true <-> occurs_in sub s.
Proof.
  unfold occurs_in. induction s as [|c s IH].
  - change (JS.includes sub "") with (String.prefix sub "" || false).
    rewrite orb_false_r, prefix_true_iff. split.
    + intros [rest E]. exists "", rest. exact E.
    + intros [before [after E]]. destruct before; simpl in E.
      * exists after. exact E.
      * discriminate.
  - change (JS.includes sub (String c s))
      with (String.prefix sub (String c s) || JS.includes sub s).
    rewrite orb_true_iff, prefix_true_iff, IH. split.
    + intros [[rest E] | [before [after E]]].
      * exists "", rest. exact E.
      * exists (String c before), after. simpl. now rewrite E.
    + intros [before [after E]]. destruct before as [|d before]; simpl in E.
      * left. exists after. exact E.
      * right. injection E as _ E. exists before, after. exact E.
Qed.

Lemma split_lines_nonempty (s : string) : JS.split_lines s <> [].
Proof.
  induction s as [|c s IH]; simpl; [discriminate|].
  destruct (Ascii.eqb c JS.newline); [discriminate|].
  destruct (JS.split_lines s); discriminate.
Qed.

(** A text without newline is a single line. *)
Lemma split_lines_single (a : string) :
  JS.no_newline a = true -> JS.split_lines a = [a].
Proof.
  induction a as [|c a IH]; simpl; [reflexivity|].
  intros H. apply andb_true_iff in H as [Hc Ha].
  apply negb_true_iff in Hc. rewrite Hc, (IH Ha). reflexivity.
Qed.

(** The first line of [a ++ "\n" ++ b] is [a] when [a] has no newline. *)
Lemma split_lines_first (a b : string) :
  JS.no_newline a = true ->
  JS.split_lines (a ++ JS.LF ++ b) = a :: JS.split_lines b.
Proof.
  induction a as [|c a IH]; simpl; intros H.
  - reflexivity.
  - apply andb_true_iff in H as [Hc Ha].
    apply negb_true_iff in Hc. rewrite Hc. simpl in IH. rewrite (IH Ha).
    reflexivity.
Qed.

Lemma no_newline_append (a b : string) :
  JS.no_newline (a ++ b) = JS.no_newline a && JS.no_newline b.
Proof.
  induction a as [|c a IH]; simpl; [reflexivity|].
  rewrite IH. now rewrite andb_assoc.
Qed.

End StringFacts.

(* ================================================================== *)
(** * Facts about running handler programs *)
(* ================================================================== *)

Section RunFacts.

Context {W : Type} (store : Store W).

Lemma run_bind {A B : Type} (p : Prog A) (f : A -> Prog B) (w : W) :
  run store (bind p f) w =
  let '(out, sent, w1) := run store p w in
  match out with
  | inl e => (inl e, sent, w1)
  | inr a =>
      let '(out2, sent2, w2) := run store (f a) w1 in
      (out2, (sent ++ sent2)%list, w2)
  end.
Proof.
  revert w. induction p as [a|e|rq k IH|k IH]; intros w; simpl.
  - destruct (run store (f a) w) as [[o s] w']. reflexivity.
  - reflexivity.
  - destruct (serve store rq w) as [res w1]. rewrite IH.
    destruct (run store (k res) w1) as [[[e|a] s] w2]; [reflexivity|].
    destruct (run store (f a) w2) as [[o2 s2] w3]. reflexivity.
  - destruct (tick store w) as [t w1]. apply IH.
Qed.

Lemma run_try_catch {A : Type} (p : Prog A) (h : Exn -> Prog A) (w : W) :
  run store (try_catch p h) w =
  let '(out, sent, w1) := run store p w in
  match out with
  | inr a => (inr a, sent, w1)
  | inl e =>
      let '(out2, sent2, w2) := run store (h e) w1 in
      (out2, (sent ++ sent2)%list, w2)
  end.
Proof.
  revert w. induction p as [a|e|rq k IH|k IH]; intros w; simpl.
  - reflexivity.
  - destruct (run store (h e) w) as [[o s] w']. reflexivity.
  - destruct (serve store rq w) as [res w1]. rewrite IH.
    destruct (run store (k res) w1) as [[[e|a] s] w2]; [|reflexivity].
    destruct (run store (h e) w2) as [[o2 s2] w3]. reflexivity.
  - destruct (tick store w) as [t w1]. apply IH.
Qed.

(** With the configuration present, a handler returns what its [try] block
    returns, or the rendering of the exception the block raised; it sends
    the requests of the block and nothing else. *)
Lemma run_guarded (env : Config) (body : Prog ToolResult)
  (render : Exn -> string) (w : W) :
  checkHubSpotConfig env = [] ->
  run store (guarded env body render) w =
  let '(out, sent, w1) := run store body w in
  (inr (match out with inr r => r | inl e => failure (render e) end), sent, w1).
Proof.
  intros Hcfg. unfold guarded. rewrite Hcfg. simpl. rewrite run_try_catch.
  destruct (run store body w) as [[[e|r] sent] w1]; simpl.
  - now rewrite app_nil_r.
  - reflexivity.
Qed.

(** With a variable missing, a handler sends nothing. *)
Lemma run_unconfigured (env : Config) (body : Prog ToolResult)
  (render : Exn -> string) (w : W) :
  checkHubSpotConfig env <> [] ->
  run store (guarded env body render) w =
  (inr (failure ("Error: Missing required environment variables: "
                 ++ JS.join ", " (checkHubSpotConfig env))), [], w).
Proof.
  intros Hcfg. unfold guarded.
  destruct (checkHubSpotConfig env) as [|m ms]; [now elim Hcfg|].
  reflexivity.
Qed.

Lemma run_fetch (rq : Request) (w : W) :
  run store (fetch rq) w =
  (inr (fst (serve store rq w)), [rq], snd (serve store rq w)).
Proof.
  unfold fetch. simpl. destruct (serve store rq w). reflexivity.
Qed.

Lemma run_check_ok (res : Response) (w : W) :
  run store (check_ok res) w =
  ((if ok res then inr tt else inl (HttpError (status res) (message res))), [], w).
Proof. unfold check_ok. destruct (ok res); reflexivity. Qed.

Lemma run_liftE {A : Type} (r : Exn + A) (w : W) :
  run store (liftE r) w = (r, [], w).
Proof. destruct r; reflexivity. Qed.

End RunFacts.

(* ================================================================== *)
(** * The note-body codec *)
(* ================================================================== *)

Section CodecFacts.

Import StringFacts.

Lemma parseLine_title (cur : Fields) (t : string) :
  parseLine cur ("Title: " ++ t)
  = mkFields t (currentSummary cur) (currentAuthor cur).
Proof.
  unfold parseLine, JS.startsWith.
  rewrite (prefix_append "Title: " t), (replace_leading "Title: " t).
  reflexivity.
Qed.

Lemma parseLine_summary (cur : Fields) (s : string) :
  parseLine cur ("Summary: " ++ s)
  = mkFields (currentTitle cur) s (currentAuthor cur).
Proof.
  unfold parseLine, JS.startsWith.
  replace (String.prefix "Title: " ("Summary: " ++ s)) with false by reflexivity.
  rewrite (prefix_append "Summary: " s), (replace_leading "Summary: " s).
  reflexivity.
Qed.

Lemma parseLine_author (cur : Fields) (a : string) :
  parseLine cur ("Author: " ++ a)
  = mkFields (currentTitle cur) (currentSummary cur) a.
Proof.
  unfold parseLine, JS.startsWith.
  replace (String.prefix "Title: " ("Author: " ++ a)) with false by reflexivity.
  replace (String.prefix "Summary: " ("Author: " ++ a)) with false by reflexivity.
  rewrite (prefix_append "Author: " a), (replace_leading "Author: " a).
  reflexivity.
Qed.

(** The body built by the template has exactly the three labelled lines. *)
Lemma split_lines_noteBody (t s a : string) :
  JS.no_newline t = true -> JS.no_newline s = true -> JS.no_newline a = true ->
  JS.split_lines (noteBody t s a)
  = ["Title: " ++ t; "Summary: " ++ s; "Author: " ++ a].
Proof.
  intros Ht Hs Ha. unfold noteBody.
  rewrite <- (append_assoc "Title: " t).
  rewrite split_lines_first by (rewrite no_newline_append; now rewrite Ht).
  rewrite <- (append_assoc "Summary: " s).
  rewrite split_lines_first by (rewrite no_newline_append; now rewrite Hs).
  rewrite split_lines_single by (rewrite no_newline_append; now rewrite Ha).
  reflexivity.
Qed.

(** A line without label leaves the three variables as they are. *)
Lemma parseLine_unlabelled (cur : Fields) (line : string) :
  is_label_line line = false -> parseLine cur line = cur.
Proof.
  unfold is_label_line, parseLine. intros H.
  apply orb_false_iff in H as [H Ha]. apply orb_false_iff in H as [Ht Hs].
  now rewrite Ht, Hs, Ha.
Qed.

Lemma fold_parseLine_title (lines : list string) (init : Fields) :
  (forall l, In l lines -> JS.startsWith "Title: " l = false) ->
  currentTitle (fold_left parseLine lines init) = currentTitle init.
Proof.
  revert init. induction lines as [|l lines IH]; intros init H; simpl.
  - reflexivity.
  - rewrite IH by (intros; apply H; now right).
    unfold parseLine. rewrite (H l) by now left.
    destruct (JS.startsWith "Summary: " l); [reflexivity|].
    destruct (JS.startsWith "Author: " l); reflexivity.
Qed.

Lemma fold_parseLine_summary (lines : list string) (init : Fields) :
  (forall l, In l lines -> JS.startsWith "Summary: " l = false) ->
  currentSummary (fold_left parseLine lines init) = currentSummary init.
Proof.
  revert init. induction lines as [|l lines IH]; intros init H; simpl.
  - reflexivity.
  - rewrite IH by (intros; apply H; now right).
    unfold parseLine. rewrite (H l) by now left.
    destruct (JS.startsWith "Title: " l); [reflexivity|].
    destruct (JS.startsWith "Author: " l); reflexivity.
Qed.

Lemma fold_parseLine_author (lines : list string) (init : Fields) :
  (forall l, In l lines -> JS.startsWith "Author: " l = false) ->
  currentAuthor (fold_left parseLine lines init) = currentAuthor init.
Proof.
  revert init. induction lines as [|l lines IH]; intros init H; simpl.
  - reflexivity.
  - rewrite IH by (intros; apply H; now right).
    unfold parseLine. rewrite (H l) by now left.
    destruct (JS.startsWith "Title: " l); [reflexivity|].
    destruct (JS.startsWith "Summary: " l); reflexivity.
Qed.

(** Only the labelled lines count. *)
Lemma fold_parseLine_labelled (lines : list string) (init : Fields) :
  fold_left parseLine lines init
  = fold_left parseLine (filter is_label_line lines) init.
Proof.
  revert init. induction lines as [|l lines IH]; intros init; simpl.
  - reflexivity.
  - destruct (is_label_line l) eqn:E; simpl.
    + apply IH.
    + rewrite (parseLine_unlabelled _ _ E). apply IH.
Qed.

(** C2.  Round trip of the codec: for title, summary and author without
    newline characters, parsing (as [updateSharedSummary] does) the body
    [Title: t / Summary: s / Author: a] built by the template of
    [createSharedSummary] gives back exactly the three fields. *)
Theorem parseBody_noteBody (t s a : string) :
  JS.no_newline t = true -> JS.no_newline s = true -> JS.no_newline a = true ->
  parseBody (noteBody t s a) = mkFields t s a.
Proof.
  intros Ht Hs Ha. unfold parseBody.
  rewrite (split_lines_noteBody t s a Ht Hs Ha). unfold fold_left.
  rewrite parseLine_title, parseLine_summary, parseLine_author.
  reflexivity.
Qed.

Lemma parseBody_noteBody_witness :
  parseBody (noteBody "Plan" "Budget review: Title: Q3" "Ann")
  = mkFields "Plan" "Budget review: Title: Q3" "Ann".
Proof.
  apply (parseBody_noteBody "Plan" "Budget review: Title: Q3" "Ann");
    reflexivity.
Defined.

(** The merge is the rule of the specification, field by field. *)
Lemma or_else_merged (supplied : option string) (previous : string) :
  JS.or_else supplied previous = merged supplied previous.
Proof. destruct supplied as [[|c s]|]; reflexivity. Qed.

(** C3.  Merge on update: each of the three merged fields is the
    caller's value when that value is present and non-empty and the
    previously parsed value otherwise, independently of the other two
    fields; an empty string supplied for a field leaves that field as it was
    and makes the handler behave exactly as if the field had not been
    supplied, so it raises no error of its own. *)
Theorem merge_keeps_previous_on_empty :
  (forall (title summary author : option string) (cur : Fields),
      newTitle title cur = merged title (currentTitle cur)
      /\ newSummary summary cur = merged summary (currentSummary cur)
      /\ newAuthor author cur = merged author (currentAuthor cur)
      /\ updatedBody title summary author cur
         = noteBody (merged title (currentTitle cur))
                    (merged summary (currentSummary cur))
                    (merged author (currentAuthor cur)))
  /\ (forall (c : ascii) (v previous : string),
         merged (Some (String c v)) previous = String c v)
  /\ (forall previous : string,
         merged (Some "") previous = previous /\ merged None previous = previous)
  /\ (forall (toLowerCase : string -> string) (env : Config)
             (id query title summary author : option string),
         updateSharedSummary toLowerCase env id query (Some "") summary author
         = updateSharedSummary toLowerCase env id query None summary author
         /\ updateSharedSummary toLowerCase env id query title (Some "") author
            = updateSharedSummary toLowerCase env id query title None author
         /\ updateSharedSummary toLowerCase env id query title summary (Some "")
            = updateSharedSummary toLowerCase env id query title summary None).
Proof.
  split; [|split; [|split]].
  - intros title summary author cur.
    unfold updatedBody, newTitle, newSummary, newAuthor.
    rewrite !or_else_merged. repeat split; reflexivity.
  - reflexivity.
  - intros previous. split; reflexivity.
  - intros. repeat split; reflexivity.
Qed.

End CodecFacts.

(* ================================================================== *)
(** * Sorting by timestamp and truncating *)
(* ================================================================== *)

Section SortFacts.

Lemma insert_perm {A : Type} (cmp : A -> A -> Z) (x : A) (l : list A) :
  Permutation (JS.insert cmp x l) (x :: l).
Proof.
  induction l as [|y l IH]; simpl.
  - apply Permutation_refl.
  - destruct (cmp x y <=? 0).
    + apply Permutation_refl.
    + eapply Permutation_trans; [apply perm_skip, IH | apply perm_swap].
Qed.

Lemma sort_perm {A : Type} (cmp : A -> A -> Z) (l : list A) :
  Permutation (JS.sort cmp l) l.
Proof.
  induction l as [|x l IH]; simpl.
  - apply perm_nil.
  - eapply Permutation_trans; [apply insert_perm | apply perm_skip, IH].
Qed.

Lemma insert_newest_first (x : Note) (l : list Note) :
  StronglySorted newer_or_same l ->
  StronglySorted newer_or_same (JS.insert byTimestampDesc x l).
Proof.
  induction 1 as [|y l Hl IH Hy]; simpl.
  - constructor; [constructor | constructor].
  - unfold byTimestampDesc at 1.
    destruct (engagement_timestamp y - engagement_timestamp x <=? 0) eqn:E.
    + apply Z.leb_le in E. constructor.
      * constructor; assumption.
      * constructor; [unfold newer_or_same; lia|].
        eapply Forall_impl; [|exact Hy].
        unfold newer_or_same. intros r Hr. lia.
    + apply Z.leb_gt in E. constructor; [exact IH|].
      eapply Permutation_Forall; [apply Permutation_sym, insert_perm|].
      constructor; [unfold newer_or_same; lia | exact Hy].
Qed.

Lemma sort_newest_first (l : list Note) :
  StronglySorted newer_or_same (JS.sort byTimestampDesc l).
Proof.
  induction l as [|x l IH]; simpl.
  - constructor.
  - apply insert_newest_first, IH.
Qed.

Lemma insert_stable (t : Z) (x : Note) (l : list Note) :
  filter (created_at t) (JS.insert byTimestampDesc x l)
  = filter (created_at t) (x :: l).
Proof.
  induction l as [|y l IH]; [reflexivity|].
  cbn [JS.insert]. unfold byTimestampDesc at 1.
  destruct (engagement_timestamp y - engagement_timestamp x <=? 0) eqn:E;
    [reflexivity|].
  apply Z.leb_gt in E. cbn [filter] in *. rewrite IH.
  unfold created_at.
  destruct (engagement_timestamp x =? t) eqn:Ex; [|reflexivity].
  apply Z.eqb_eq in Ex.
  destruct (engagement_timestamp y =? t) eqn:Ey; [|reflexivity].
  apply Z.eqb_eq in Ey. lia.
Qed.

(** Records with the same timestamp keep the order they had. *)
Lemma sort_stable (t : Z) (l : list Note) :
  filter (created_at t) (JS.sort byTimestampDesc l) = filter (created_at t) l.
Proof.
  induction l as [|x l IH]; [reflexivity|].
  cbn [JS.sort]. rewrite insert_stable. cbn [filter]. now rewrite IH.
Qed.

(** The head of the sorted list is a newest record, and among the newest
    ones the first of the original list. *)
Lemma sort_head (l : list Note) (first : Note) (rest : list Note) :
  JS.sort byTimestampDesc l = first :: rest ->
  In first l
  /\ (forall r, In r l -> engagement_timestamp r <= engagement_timestamp first)
  /\ hd_error (filter (created_at (engagement_timestamp first)) l) = Some first.
Proof.
  intros E.
  pose proof (sort_perm byTimestampDesc l) as P.
  pose proof (sort_newest_first l) as S.
  pose proof (sort_stable (engagement_timestamp first) l) as T.
  rewrite E in P, S, T. repeat split.
  - eapply Permutation_in; [exact P | now left].
  - intros r Hr. apply Permutation_sym in P.
    apply (Permutation_in _ P) in Hr. inversion S as [|? ? _ HF]; subst.
    destruct Hr as [<-|Hr]; [lia|].
    rewrite Forall_forall in HF. apply (HF r Hr).
  - rewrite <- T. cbn [filter]. unfold created_at at 1.
    now rewrite Z.eqb_refl.
Qed.


Lemma slice0_firstn {A : Type} (n : Z) (l : list A) :
  0 <= n -> JS.slice0 n l = firstn (Z.to_nat n) l.
Proof.
  intros H. unfold JS.slice0.
  destruct (n <? 0) eqn:E; [apply Z.ltb_lt in E; lia | reflexivity].
Qed.

End SortFacts.

(* ================================================================== *)
(** * Listing: getSummaries *)
(* ================================================================== *)

Section ListingFacts.

Context {W : Type} (store : Store W) (LocalTZA : Z -> Z).

(** What a configured [getSummaries] does once the page is there. *)
Lemma run_getSummaries (env : Config) (date dayOfWeek : option string)
  (limit : option Z) (timeRange : option TimeRange)
  (w w1 : W) (res : Response) :
  checkHubSpotConfig env = [] ->
  serve store GET_paged w = (res, w1) ->
  ok res = true ->
  run store (getSummaries LocalTZA env date dayOfWeek limit timeRange) w
  = (inr (match selectSummaries LocalTZA date dayOfWeek limit timeRange (results res) with
          | inr rs => success (Json rs)
          | inl e => failure ("Error retrieving summaries: " ++ error_message e)
          end),
     [GET_paged], w1).
Proof.
  intros Hcfg Hsrv Hok. unfold getSummaries.
  rewrite run_guarded by assumption.
  rewrite run_bind, run_fetch, Hsrv. cbn [fst snd].
  rewrite run_bind, run_check_ok, Hok.
  rewrite run_bind, run_liftE.
  destruct (selectSummaries _ _ _ _ _ _) as [e|rs]; reflexivity.
Qed.

(** Whatever the store answers, a [getSummaries] whose pipeline would
    reject the page ends in an error result. *)
Lemma getSummaries_error (env : Config) (date dayOfWeek : option string)
  (limit : option Z) (timeRange : option TimeRange) (w : W) :
  (forall page, exists e,
      selectSummaries LocalTZA date dayOfWeek limit timeRange page = inl e) ->
  exists r,
    result_of (run store (getSummaries LocalTZA env date dayOfWeek limit timeRange) w)
    = inr r /\ isError r = true.
Proof.
  intros Hsel. unfold getSummaries.
  destruct (checkHubSpotConfig env) as [|m ms] eqn:Hcfg.
  - rewrite run_guarded by assumption.
    rewrite run_bind, run_fetch. cbn [fst snd].
    destruct (serve store GET_paged w) as [res w1]. cbn [fst snd].
    rewrite run_bind, run_check_ok.
    destruct (ok res).
    + rewrite run_bind, run_liftE.
      destruct (Hsel (results res)) as [e ->].
      eexists. split; reflexivity.
    + eexists. split; reflexivity.
  - rewrite run_unconfigured by (rewrite Hcfg; discriminate).
    eexists. split; reflexivity.
Qed.

End ListingFacts.

Section ListingClaims.

Context {W : Type} (store : Store W) (LocalTZA : Z -> Z).

(** C8.  After the filters, [getSummaries] orders the surviving records by
    timestamp, newest first, records with equal timestamps keeping the
    order they had (the sorted list is a permutation of the survivors, it
    is descending, and for every instant the records created at that
    instant appear in their original order); with a limit [n > 0] it
    returns exactly the first [n] records of that order, and without a
    limit all of them. *)
Theorem getSummaries_newest_first_then_limit
  (env : Config) (date dayOfWeek : option string) (timeRange : option TimeRange)
  (w w1 : W) (res : Response) (survivors : list Note) :
  checkHubSpotConfig env = [] ->
  serve store GET_paged w = (res, w1) ->
  ok res = true ->
  applyFilters LocalTZA date dayOfWeek timeRange (results res) = inr survivors ->
  let sorted := JS.sort byTimestampDesc survivors in
  Permutation sorted survivors
  /\ StronglySorted newer_or_same sorted
  /\ (forall t, filter (created_at t) sorted = filter (created_at t) survivors)
  /\ (forall n, 0 < n ->
        run store (getSummaries LocalTZA env date dayOfWeek (Some n) timeRange) w
        = (inr (success (Json (firstn (Z.to_nat n) sorted))), [GET_paged], w1))
  /\ run store (getSummaries LocalTZA env date dayOfWeek None timeRange) w
     = (inr (success (Json sorted)), [GET_paged], w1).
Proof.
  intros Hcfg Hsrv Hok Hf sorted.
  split; [apply sort_perm|].
  split; [apply sort_newest_first|].
  split; [intros t; apply sort_stable|].
  split.
  - intros n Hn.
    rewrite (run_getSummaries store LocalTZA env _ _ _ _ w w1 res Hcfg Hsrv Hok).
    unfold selectSummaries, filterAndSort. rewrite Hf.
    unfold applyLimit, JS.truthy_num, JS.num_gt, num.
    replace (n =? 0) with false by (symmetry; apply Z.eqb_neq; lia).
    replace (0 <? n) with true by (symmetry; apply Z.ltb_lt; lia).
    cbn [negb andb]. rewrite slice0_firstn by lia. reflexivity.
  - rewrite (run_getSummaries store LocalTZA env _ _ _ _ w w1 res Hcfg Hsrv Hok).
    unfold selectSummaries, filterAndSort. rewrite Hf. reflexivity.
Qed.

End ListingClaims.

Lemma getSummaries_newest_first_then_limit_witness :
  run crm (getSummaries utc sample_env None None (Some 2) None) sample_crm
  = (inr (success (Json
       [ mkNote "102" tuesday_1001 (Some (noteBody "Retro" "What went well" "Bob"));
         mkNote "103" tuesday_0859 (Some (noteBody "Sync" "Weekly sync" "Cy")) ])),
     [GET_paged], sample_crm).
Proof.
  destruct (getSummaries_newest_first_then_limit crm utc sample_env None None None
              sample_crm sample_crm
              (mkResponse true 200 "" sample_notes blank) sample_notes
              eq_refl eq_refl eq_refl eq_refl)
    as (_ & _ & _ & Hlimit & _).
  exact (Hlimit 2 eq_refl).
Defined.

(* ================================================================== *)
(** * The limit *)
(* ================================================================== *)

Section LimitFacts.

Context {W : Type} (store : Store W) (LocalTZA : Z -> Z).

Lemma applyLimit_negative (n : Z) (sorted : list Note) :
  n < 0 -> applyLimit (Some n) sorted = inl LimitNotPositive.
Proof.
  intros Hn. unfold applyLimit, JS.truthy_num, JS.num_gt, JS.num_lt.
  replace (n =? 0) with false by (symmetry; apply Z.eqb_neq; lia).
  replace (0 <? n) with false by (symmetry; apply Z.ltb_ge; lia).
  replace (n <? 1) with true by (symmetry; apply Z.ltb_lt; lia).
  reflexivity.
Qed.

Lemma deleteCount_nonpositive (n : Z) : n <= 0 -> deleteCount (Some n) = 1.
Proof.
  intros Hn. unfold deleteCount, JS.truthy_num, JS.num_gt.
  replace (0 <? n) with false by (symmetry; apply Z.ltb_ge; lia).
  now rewrite andb_false_r.
Qed.

(** The limit reaches the choice of the record to delete through
    [deleteCount] only. *)
Lemma run_handleDelete_same_count (env : Config) (id date dayOfWeek : option string)
  (l1 l2 : option Z) (timeRange : option TimeRange) (w : W) :
  deleteCount l1 = deleteCount l2 ->
  run store (handleDeleteSharedSummary LocalTZA env id date dayOfWeek l1 timeRange) w
  = run store (handleDeleteSharedSummary LocalTZA env id date dayOfWeek l2 timeRange) w.
Proof.
  intros Hcount.
  assert (Hsel : forall page,
             selectDeleteTarget LocalTZA date dayOfWeek l1 timeRange page
             = selectDeleteTarget LocalTZA date dayOfWeek l2 timeRange page).
  { intros page. unfold selectDeleteTarget. now rewrite Hcount. }
  unfold handleDeleteSharedSummary.
  destruct (checkHubSpotConfig env) as [|m ms] eqn:Hcfg.
  - rewrite !run_guarded by assumption. rewrite !run_bind.
    destruct (negb (JS.truthy id)); [|reflexivity].
    rewrite !run_bind, !run_fetch. cbn [fst snd].
    destruct (serve store GET_paged w) as [res w1]. cbn [fst snd].
    rewrite !run_bind, !run_check_ok. destruct (ok res); [|reflexivity].
    rewrite !run_liftE, Hsel. reflexivity.
  - rewrite !run_unconfigured by (rewrite Hcfg; discriminate). reflexivity.
Qed.

(** C1, as the code has it.  In [getSummaries] a negative limit is
    rejected: the pipeline raises "Limit must be a positive number greater
    than 0" whenever the filters and the sort before it succeed, so that a
    configured handler whose page fetch succeeds returns that error, and
    whatever the store answers the handler ends in an error result.  In
    [handleDeleteSharedSummary] a limit that is zero or negative is not an
    error: it counts as the default 1, and the handler behaves exactly as
    without a limit. *)
Theorem negative_limit_rejected_in_listing_defaulted_in_delete
  (env : Config) (date dayOfWeek : option string) (timeRange : option TimeRange)
  (n : Z) :
  (n < 0 ->
     (forall page sorted,
         filterAndSort LocalTZA date dayOfWeek timeRange page = inr sorted ->
         selectSummaries LocalTZA date dayOfWeek (Some n) timeRange page
         = inl LimitNotPositive)
     /\ (forall w w1 res sorted,
            checkHubSpotConfig env = [] ->
            serve store GET_paged w = (res, w1) ->
            ok res = true ->
            filterAndSort LocalTZA date dayOfWeek timeRange (results res) = inr sorted ->
            run store (getSummaries LocalTZA env date dayOfWeek (Some n) timeRange) w
            = (inr (failure
                 "Error retrieving summaries: Limit must be a positive number greater than 0"),
               [GET_paged], w1))
     /\ (forall w, exists r,
            result_of (run store
                         (getSummaries LocalTZA env date dayOfWeek (Some n) timeRange) w)
            = inr r
            /\ isError r = true))
  /\ (n <= 0 ->
        deleteCount (Some n) = 1
        /\ forall id w,
            run store (handleDeleteSharedSummary LocalTZA env id date dayOfWeek
                         (Some n) timeRange) w
            = run store (handleDeleteSharedSummary LocalTZA env id date dayOfWeek
                           None timeRange) w).
Proof.
  split.
  - intros Hn.
    assert (Hsel : forall page sorted,
               filterAndSort LocalTZA date dayOfWeek timeRange page = inr sorted ->
               selectSummaries LocalTZA date dayOfWeek (Some n) timeRange page
               = inl LimitNotPositive).
    { intros page sorted Hs. unfold selectSummaries. rewrite Hs.
      now apply applyLimit_negative. }
    split; [exact Hsel|]. split.
    + intros w w1 res sorted Hcfg Hsrv Hok Hs.
      rewrite (run_getSummaries store LocalTZA env _ _ _ _ w w1 res Hcfg Hsrv Hok).
      rewrite (Hsel _ _ Hs). reflexivity.
    + intros w. apply getSummaries_error. intros page.
      unfold selectSummaries.
      destruct (filterAndSort LocalTZA date dayOfWeek timeRange page) as [e|sorted].
      * exists e. reflexivity.
      * exists LimitNotPositive. now apply applyLimit_negative.
  - intros Hn. split; [now apply deleteCount_nonpositive|].
    intros id w. apply run_handleDelete_same_count.
    now rewrite deleteCount_nonpositive.
Qed.

End LimitFacts.

Lemma negative_limit_rejected_in_listing_defaulted_in_delete_witness :
  run crm (getSummaries utc sample_env None None (Some (-3)) None) sample_crm
  = (inr (failure
       "Error retrieving summaries: Limit must be a positive number greater than 0"),
     [GET_paged], sample_crm)
  /\ run crm (handleDeleteSharedSummary utc sample_env None None None (Some (-3)) None)
       sample_crm
     = run crm (handleDeleteSharedSummary utc sample_env None None None None None)
         sample_crm.
Proof.
  destruct (negative_limit_rejected_in_listing_defaulted_in_delete
              crm utc sample_env None None None (-3)) as [Hlist Hdelete].
  split.
  - destruct (Hlist eq_refl) as (_ & Hrun & _).
    exact (Hrun sample_crm sample_crm (mkResponse true 200 "" sample_notes blank)
             (JS.sort byTimestampDesc sample_notes) eq_refl eq_refl eq_refl eq_refl).
  - assert (Hle : -3 <= 0) by (intro H; discriminate H).
    destruct (Hdelete Hle) as [_ Hsame].
    exact (Hsame None sample_crm).
Defined.

(** C1 as stated fails.  With limit -1 and no id, [handleDeleteSharedSummary]
    raises no error and deletes the newest note; with limit 0,
    [getSummaries] raises no error and returns every note. *)
Lemma nonpositive_limit_not_always_rejected :
  run crm (handleDeleteSharedSummary utc sample_env None None None (Some (-1)) None)
    sample_crm
  = (inr (success (Text "Summary deleted successfully. Engagement ID: 102")),
     [GET_paged; DELETE_engagement "102"],
     mkCrm
       [ mkNote "101" monday_0930 (Some (noteBody "Plan" "Budget review" "Ann"));
         mkNote "103" tuesday_0859 (Some (noteBody "Sync" "Weekly sync" "Cy")) ]
       104 1709700000000)
  /\ run crm (getSummaries utc sample_env None None (Some 0) None) sample_crm
     = (inr (success (Json
          [ mkNote "102" tuesday_1001 (Some (noteBody "Retro" "What went well" "Bob"));
            mkNote "103" tuesday_0859 (Some (noteBody "Sync" "Weekly sync" "Cy"));
            mkNote "101" monday_0930 (Some (noteBody "Plan" "Budget review" "Ann")) ])),
        [GET_paged], sample_crm).
Proof. split; vm_compute; reflexivity. Qed.

(* ================================================================== *)
(** * The time-of-day window *)
(* ================================================================== *)

Section TimeRangeFacts.

Variable LocalTZA : Z -> Z.

Lemma ascii_compare_lt (c d : ascii) :
  Ascii.compare c d = Lt <-> (Ascii.nat_of_ascii c < Ascii.nat_of_ascii d)%nat.
Proof.
  unfold Ascii.compare, Ascii.nat_of_ascii. rewrite N.compare_lt_iff. lia.
Qed.

(** The string comparison of the runtime is the lexicographic order. *)
Lemma leb_lex_le (a b : string) : String.leb a b = true <-> lex_le a b.
Proof.
  unfold String.leb. revert b.
  induction a as [|c a IH]; intros b.
  - split; [intros _; constructor | intros _; destruct b; reflexivity].
  - destruct b as [|d b]; cbn [String.compare].
    + split; [discriminate | intros H; inversion H].
    + destruct (Ascii.compare c d) eqn:E.
      * apply Ascii.compare_eq_iff in E. subst d. rewrite IH. split.
        -- intros H. now apply lex_le_same.
        -- intros H. inversion H as [| ? ? ? ? Hlt | ? ? ? Hle]; subst.
           ++ lia.
           ++ exact Hle.
      * split; [intros _ | reflexivity].
        apply lex_le_less. now apply ascii_compare_lt.
      * split; [discriminate|]. intros H.
        inversion H as [| ? ? ? ? Hlt | ? ? ? Hle]; subst.
        -- apply ascii_compare_lt in Hlt. congruence.
        -- assert (Ascii.compare d d = Eq) as Hd
             by (unfold Ascii.compare; apply N.compare_refl).
           congruence.
Qed.

(** Numbers below 60 print as two digits once padded. *)
Lemma pad_two_digits (v : Z) :
  0 <= v < 60 -> pad (Some v) = two_digits v.
Proof.
  intros Hv.
  assert (Hall : forallb
                   (fun k => String.eqb (pad (Some (Z.of_nat k)))
                               (two_digits (Z.of_nat k)))
                   (seq 0 60) = true) by (vm_compute; reflexivity).
  rewrite forallb_forall in Hall.
  specialize (Hall (Z.to_nat v)).
  rewrite Z2Nat.id in Hall by lia.
  apply String.eqb_eq, Hall, in_seq. lia.
Qed.

(** For a valid date the time of day is the zero-padded [HH:MM] of the
    local hour and minute. *)
Lemma currentTime_padded (ts : Z) :
  JS.valid_time ts = true ->
  let h := JS.HourFromTime (JS.LocalTime LocalTZA ts) in
  let m := JS.MinFromTime (JS.LocalTime LocalTZA ts) in
  0 <= h < 24 /\ 0 <= m < 60
  /\ currentTime LocalTZA ts = two_digits h ++ ":" ++ two_digits m.
Proof.
  intros Hvalid h m.
  assert (Hh : 0 <= h < 24) by (apply Z.mod_pos_bound; lia).
  assert (Hm : 0 <= m < 60) by (apply Z.mod_pos_bound; lia).
  repeat split; try lia.
  unfold currentTime, JS.getHours, JS.getMinutes. rewrite Hvalid.
  fold h. fold m. now rewrite !pad_two_digits by lia.
Qed.

(** C7.  With both bounds of [timeRange] set, the time filter keeps a
    record exactly when its time of day [HH:MM] lies between [start] and
    [end] in the lexicographic order on strings, both bounds included; the
    kept records stay in their order; and for a valid timestamp [HH:MM] is
    the zero-padded local hour and minute of [createdAt]. *)
Theorem timeRange_keeps_inclusive_string_window
  (tr : TimeRange) (page : list Note) :
  JS.nonempty (start tr) = true ->
  JS.nonempty (end_ tr) = true ->
  (forall r,
      In r (filterByTimeRange LocalTZA (Some tr) page)
      <-> In r page
          /\ lex_le (start tr) (currentTime LocalTZA (engagement_timestamp r))
          /\ lex_le (currentTime LocalTZA (engagement_timestamp r)) (end_ tr))
  /\ filterByTimeRange LocalTZA (Some tr) page = filter (inTimeRange LocalTZA tr) page
  /\ (forall r,
         JS.valid_time (engagement_timestamp r) = true ->
         currentTime LocalTZA (engagement_timestamp r)
         = two_digits (JS.HourFromTime (JS.LocalTime LocalTZA (engagement_timestamp r)))
           ++ ":"
           ++ two_digits (JS.MinFromTime (JS.LocalTime LocalTZA (engagement_timestamp r)))).
Proof.
  intros Hs He.
  assert (Hfilter : filterByTimeRange LocalTZA (Some tr) page
                    = filter (inTimeRange LocalTZA tr) page).
  { unfold filterByTimeRange. now rewrite Hs, He. }
  split; [|split; [exact Hfilter|]].
  - intros r. rewrite Hfilter, filter_In.
    unfold inTimeRange, JS.str_ge, JS.str_le.
    rewrite andb_true_iff, !leb_lex_le. reflexivity.
  - intros r Hvalid. apply (currentTime_padded _ Hvalid).
Qed.

End TimeRangeFacts.

Lemma timeRange_keeps_inclusive_string_window_witness :
  filterByTimeRange utc (Some (mkTimeRange "09:00" "10:00")) sample_notes
  = [ mkNote "101" monday_0930 (Some (noteBody "Plan" "Budget review" "Ann")) ]
  /\ currentTime utc tuesday_0859 = "08:59"
  /\ currentTime utc tuesday_1001 = "10:01".
Proof.
  destruct (timeRange_keeps_inclusive_string_window utc
              (mkTimeRange "09:00" "10:00") sample_notes eq_refl eq_refl)
    as (_ & Hfilter & Hpad).
  split; [exact Hfilter|].
  split.
  - exact (Hpad (mkNote "103" tuesday_0859 None) eq_refl).
  - exact (Hpad (mkNote "102" tuesday_1001 None) eq_refl).
Defined.

(* ================================================================== *)
(** * The day of the week *)
(* ================================================================== *)

Section DayOfWeekFacts.

Variable LocalTZA : Z -> Z.

Lemma toLowerCase_nonempty (s : string) :
  JS.nonempty (JS.toLowerCase s) = JS.nonempty s.
Proof. destruct s; reflexivity. Qed.

Lemma own_property_absent (own : list (string * Z)) (key : string) :
  ~ In key (map fst own) -> JS.own_property own key = None.
Proof.
  induction own as [|[k v] own IH]; simpl; intros H; [reflexivity|].
  destruct (String.eqb_spec k key) as [->|_]; [elim H; now left|].
  apply IH. intros Hin. apply H. now right.
Qed.

Lemma mem_string_absent (key : string) (l : list string) :
  ~ In key l -> JS.mem_string key l = false.
Proof.
  induction l as [|k l IH]; simpl; intros H; [reflexivity|].
  destruct (String.eqb_spec k key) as [->|_]; [elim H; now left|].
  apply IH. intros Hin. apply H. now right.
Qed.

(** A recognised name, whatever its case, selects the records of that
    local weekday, Sunday being 0. *)
Lemma filterByDayOfWeek_named (name : string) (i : nat) (page : list Note) :
  names_day name i ->
  filterByDayOfWeek LocalTZA (Some name) page
  = inr (filter
           (fun r =>
              match JS.getDay LocalTZA (engagement_timestamp r) with
              | Some d => d =? Z.of_nat i
              | None => false
              end)
           page).
Proof.
  unfold names_day, filterByDayOfWeek, JS.truthy, text. intros Hname.
  assert (Hne : JS.nonempty name = true).
  { rewrite <- toLowerCase_nonempty.
    do 7 (destruct i as [|i];
          [injection Hname as <-; reflexivity|]).
    destruct i; discriminate. }
  rewrite Hne.
  do 7 (destruct i as [|i];
        [injection Hname as <-; reflexivity|]).
  destruct i; discriminate.
Qed.

(** A name that is neither a day nor a member of [Object.prototype] is
    rejected. *)
Lemma filterByDayOfWeek_unknown (name : string) (page : list Note) :
  JS.nonempty name = true ->
  ~ In (JS.toLowerCase name) day_names ->
  ~ In (JS.toLowerCase name) JS.Object_prototype ->
  filterByDayOfWeek LocalTZA (Some name) page = inl (InvalidDayOfWeek name).
Proof.
  intros Hne Hday Hproto.
  unfold filterByDayOfWeek, JS.truthy, text, JS.get. rewrite Hne.
  rewrite own_property_absent by exact Hday.
  rewrite mem_string_absent by exact Hproto.
  reflexivity.
Qed.

(** A name found on the prototype chain is not rejected: no record can
    have it as weekday, and the filter keeps nothing. *)
Lemma filterByDayOfWeek_inherited (name member : string) (page : list Note) :
  JS.nonempty name = true ->
  JS.get dayMap (JS.toLowerCase name) = JS.Inherited member ->
  filterByDayOfWeek LocalTZA (Some name) page = inr [].
Proof.
  intros Hne Hget.
  unfold filterByDayOfWeek, JS.truthy, text. rewrite Hne, Hget.
  cbn [JS.is_undefined]. f_equal.
  induction page as [|r page IH]; [reflexivity|].
  cbn [filter]. rewrite IH.
  now destruct (JS.getDay LocalTZA (engagement_timestamp r)).
Qed.

End DayOfWeekFacts.

(** C6, where the code departs from it.  The day name "constructor" is not
    one of the seven day names, yet the day filter does not reject it: the
    lookup in [dayMap] finds the member every object inherits, the filter
    keeps no record, and [getSummaries] answers with an empty list and no
    error. *)
Theorem dayOfWeek_constructor_matches_nothing_silently :
  ~ In (JS.toLowerCase "constructor") day_names
  /\ (forall (LocalTZA : Z -> Z) (page : list Note),
         filterByDayOfWeek LocalTZA (Some "constructor") page = inr [])
  /\ run crm (getSummaries utc sample_env None (Some "constructor") None None)
       sample_crm
     = (inr (success (Json [])), [GET_paged], sample_crm).
Proof.
  split; [|split].
  - simpl. intros H. repeat (destruct H as [H|H]; [discriminate H|]). exact H.
  - intros LocalTZA page.
    now apply (filterByDayOfWeek_inherited LocalTZA "constructor" "constructor").
  - vm_compute. reflexivity.
Qed.

(* ================================================================== *)
(** * Deleting: handleDeleteSharedSummary *)
(* ================================================================== *)

Lemma crm_page_fetch_reads_only (c : Crm) : snd (serve crm GET_paged c) = c.
Proof. reflexivity. Qed.

Section DeleteFacts.

Context {W : Type} (store : Store W) (LocalTZA : Z -> Z).

(** What a configured delete without id does once the page is there. *)
Lemma run_handleDelete_search (env : Config) (id date dayOfWeek : option string)
  (limit : option Z) (timeRange : option TimeRange) (w w1 : W) (res : Response) :
  checkHubSpotConfig env = [] ->
  JS.truthy id = false ->
  serve store GET_paged w = (res, w1) ->
  ok res = true ->
  run store (handleDeleteSharedSummary LocalTZA env id date dayOfWeek limit timeRange) w
  = match selectDeleteTarget LocalTZA date dayOfWeek limit timeRange (results res) with
    | inl e => (inr (failure ("Error deleting summary: " ++ error_message e)),
                [GET_paged], w1)
    | inr targetId =>
        let '(resDelete, w2) := serve store (DELETE_engagement targetId) w1 in
        (inr (if ok resDelete
              then success (Text ("Summary deleted successfully. Engagement ID: "
                                  ++ targetId))
              else failure ("Error deleting summary: "
                            ++ error_message (HttpError (status resDelete)
                                                (message resDelete)))),
         [GET_paged; DELETE_engagement targetId], w2)
    end.
Proof.
  intros Hcfg Hid Hsrv Hok. unfold handleDeleteSharedSummary.
  rewrite run_guarded by assumption. rewrite run_bind, Hid. cbn [negb].
  rewrite run_bind, run_fetch, Hsrv. cbn [fst snd].
  rewrite run_bind, run_check_ok, Hok. rewrite run_liftE.
  destruct (selectDeleteTarget _ _ _ _ _ _) as [e|targetId]; [reflexivity|].
  rewrite run_bind, run_fetch.
  destruct (serve store (DELETE_engagement targetId) w1) as [resDelete w2].
  cbn [fst snd]. rewrite run_bind, run_check_ok.
  destruct (ok resDelete); reflexivity.
Qed.

(** C5.  A delete without id whose filters leave no record fails with
    "No summary found matching the provided filters." and sends no delete
    request: the page fetch is the only request of the handler, and the
    store is left in the state that fetch left it in. *)
Theorem delete_without_match_sends_no_delete
  (env : Config) (id date dayOfWeek : option string) (limit : option Z)
  (timeRange : option TimeRange) (w w1 : W) (res : Response) :
  checkHubSpotConfig env = [] ->
  JS.truthy id = false ->
  serve store GET_paged w = (res, w1) ->
  ok res = true ->
  applyFilters LocalTZA date dayOfWeek timeRange (results res) = inr [] ->
  let outcome :=
    run store (handleDeleteSharedSummary LocalTZA env id date dayOfWeek limit timeRange) w in
  outcome
  = (inr (failure
       "Error deleting summary: No summary found matching the provided filters."),
     [GET_paged], w1)
  /\ existsb is_delete (requests_of outcome) = false.
Proof.
  intros Hcfg Hid Hsrv Hok Hnone outcome.
  assert (Hrun : outcome
                 = (inr (failure
                      "Error deleting summary: No summary found matching the provided filters."),
                    [GET_paged], w1)).
  { unfold outcome.
    rewrite (run_handleDelete_search env id _ _ _ _ w w1 res Hcfg Hid Hsrv Hok).
    unfold selectDeleteTarget, filterAndSort. rewrite Hnone.
    cbn [JS.sort]. unfold JS.slice0.
    destruct (deleteCount limit <? 0); rewrite firstn_nil; reflexivity. }
  split; [exact Hrun | now rewrite Hrun].
Qed.

End DeleteFacts.

Lemma delete_without_match_sends_no_delete_witness :
  run crm (handleDeleteSharedSummary utc sample_env None (Some "2024-03-06")
             (Some "Tuesday") (Some 5) None) sample_crm
  = (inr (failure
       "Error deleting summary: No summary found matching the provided filters."),
     [GET_paged], sample_crm).
Proof.
  exact (proj1 (delete_without_match_sends_no_delete crm utc sample_env
                  None (Some "2024-03-06") (Some "Tuesday") (Some 5) None
                  sample_crm sample_crm
                  (mkResponse true 200 "" sample_notes blank)
                  eq_refl eq_refl eq_refl eq_refl eq_refl)).
Defined.

(* ================================================================== *)
(** * Updating: updateSharedSummary *)
(* ================================================================== *)

Section UpdateFacts.

Context {W : Type} (store : Store W) (toLowerCase : string -> string).

Lemma or_else_body (r : Note) : JS.or_else (metadata_body r) "" = body_text r.
Proof. unfold body_text. destruct (metadata_body r) as [[|c s]|]; reflexivity. Qed.

(** The query filter keeps the records whose body contains the query,
    case ignored. *)
Lemma matchesQuery_true_iff (query : string) (r : Note) :
  matchesQuery toLowerCase query r = true
  <-> occurs_ignoring_case toLowerCase query (body_text r).
Proof.
  unfold matchesQuery, occurs_ignoring_case. cbv zeta.
  rewrite or_else_body. apply StringFacts.includes_true_iff.
Qed.

(** The search by query once the page is there. *)
Lemma run_updateTarget_search (id query : option string) (w w1 : W) (res : Response) :
  JS.truthy id = false ->
  JS.truthy query = true ->
  serve store GET_paged w = (res, w1) ->
  ok res = true ->
  run store (updateTarget toLowerCase id query) w
  = (match JS.sort byTimestampDesc
             (filter (matchesQuery toLowerCase (text query)) (results res)) with
     | [] => inl NoQueryMatch
     | first :: _ =>
         if JS.nonempty (engagement_id first) then inr (engagement_id first)
         else inl NoTarget
     end,
     [GET_paged], w1).
Proof.
  intros Hid Hq Hsrv Hok. unfold updateTarget.
  rewrite run_bind, Hid, Hq. cbn [negb andb].
  rewrite run_bind, run_fetch, Hsrv. cbn [fst snd].
  rewrite run_bind, run_check_ok, Hok.
  destruct (JS.sort byTimestampDesc _) as [|first rest]; [reflexivity|].
  cbn [run JS.truthy]. destruct (JS.nonempty (engagement_id first)); reflexivity.
Qed.

(** With an id the target is the id, and nothing is fetched to find it. *)
Lemma run_updateTarget_id (id query : option string) (w : W) :
  JS.truthy id = true ->
  run store (updateTarget toLowerCase id query) w = (inr (text id), [], w).
Proof.
  intros Hid. unfold updateTarget. rewrite run_bind, Hid. cbn [negb andb run].
  now rewrite Hid.
Qed.

(** Without id and without query nothing is fetched either. *)
Lemma run_updateTarget_nothing (id query : option string) (w : W) :
  JS.truthy id = false ->
  JS.truthy query = false ->
  run store (updateTarget toLowerCase id query) w = (inl NoTarget, [], w).
Proof.
  intros Hid Hq. unfold updateTarget. rewrite run_bind, Hid, Hq.
  cbn [negb andb run]. now rewrite Hid.
Qed.

(** What a configured update does once its target is known. *)
Lemma run_update_from_target (env : Config)
  (id query title summary author : option string)
  (targetId : string) (sent : list Request) (w w0 w1 : W) (getRes : Response) :
  checkHubSpotConfig env = [] ->
  run store (updateTarget toLowerCase id query) w = (inr targetId, sent, w0) ->
  serve store (GET_engagement targetId) w0 = (getRes, w1) ->
  run store (updateSharedSummary toLowerCase env id query title summary author) w
  = if ok getRes then
      match metadata_body (record getRes) with
      | None =>
          (inr (failure ("Error updating summary: " ++ error_message TypeError)),
           (sent ++ [GET_engagement targetId])%list, w1)
      | Some currentBody =>
          let body := updatedBody title summary author (parseBody currentBody) in
          let '(resUpdate, w2) := serve store (PUT_engagement targetId body) w1 in
          (inr (if ok resUpdate
                then success (Text ("Summary updated successfully. Engagement ID: "
                                    ++ engagement_id (record resUpdate)))
                else failure ("Error updating summary: "
                              ++ error_message (HttpError (status resUpdate)
                                                  (message resUpdate)))),
           (sent ++ [GET_engagement targetId; PUT_engagement targetId body])%list,
           w2)
      end
    else
      (inr (failure ("Error updating summary: "
                     ++ error_message (HttpError (status getRes) (message getRes)))),
       (sent ++ [GET_engagement targetId])%list, w1).
Proof.
  intros Hcfg Htarget Hget. unfold updateSharedSummary.
  rewrite run_guarded by assumption. rewrite run_bind, Htarget.
  rewrite run_bind, run_fetch, Hget. cbn [fst snd].
  rewrite run_bind, run_check_ok.
  destruct (ok getRes); [|reflexivity].
  destruct (metadata_body (record getRes)) as [currentBody|]; [|reflexivity].
  rewrite run_bind, run_fetch. cbv zeta.
  destruct (serve store (PUT_engagement targetId _) w1) as [resUpdate w2].
  cbn [fst snd]. rewrite run_bind, run_check_ok.
  destruct (ok resUpdate); reflexivity.
Qed.

(** A configured update whose target cannot be chosen returns the error. *)
Lemma run_update_no_target (env : Config)
  (id query title summary author : option string)
  (e : Exn) (sent : list Request) (w w0 : W) :
  checkHubSpotConfig env = [] ->
  run store (updateTarget toLowerCase id query) w = (inl e, sent, w0) ->
  run store (updateSharedSummary toLowerCase env id query title summary author) w
  = (inr (failure ("Error updating summary: " ++ error_message e)), sent, w0).
Proof.
  intros Hcfg Htarget. unfold updateSharedSummary.
  rewrite run_guarded by assumption. rewrite run_bind, Htarget. reflexivity.
Qed.

End UpdateFacts.

Section UpdateClaims.

Context {W : Type} (store : Store W) (toLowerCase : string -> string).

(** C4.  An update without id needs a non-empty query: with neither, it
    fails with "Please provide an Engagement ID or a search query ..." and
    sends nothing.  With a query it fetches the page once and keeps exactly
    the records whose body contains the query as a substring, case ignored:
    both are lowered by [toLowerCase] of the runtime, whatever letters they
    hold.  If none is kept it fails with "No summary found matching the
    provided query.".  Otherwise the target is one identifier, the one of
    the head of the kept records sorted newest first: a kept record, with
    the greatest timestamp among them (the first such of the page); the
    handler then reads and writes that record only. *)
Theorem update_without_id_targets_newest_match
  (env : Config) (id query title summary author : option string)
  (w w1 : W) (res : Response) :
  checkHubSpotConfig env = [] ->
  JS.truthy id = false ->
  serve store GET_paged w = (res, w1) ->
  (JS.truthy query = false ->
     run store (updateSharedSummary toLowerCase env id query title summary author) w
     = (inr (failure
          "Error updating summary: Please provide an Engagement ID or a search query to locate the summary note."),
        [], w))
  /\ (JS.truthy query = true ->
      ok res = true ->
      let kept := filter (matchesQuery toLowerCase (text query)) (results res) in
      (forall r,
          In r kept
          <-> In r (results res) /\ occurs_ignoring_case toLowerCase (text query) (body_text r))
      /\ (kept = [] ->
          run store (updateSharedSummary toLowerCase env id query title summary author) w
          = (inr (failure
               "Error updating summary: No summary found matching the provided query."),
             [GET_paged], w1))
      /\ (forall first rest,
             JS.sort byTimestampDesc kept = first :: rest ->
             In first kept
             /\ (forall r, In r kept ->
                           engagement_timestamp r <= engagement_timestamp first)
             /\ hd_error (filter (created_at (engagement_timestamp first)) kept)
                = Some first
             /\ (JS.nonempty (engagement_id first) = true ->
                 run store (updateTarget toLowerCase id query) w
                 = (inr (engagement_id first), [GET_paged], w1)
                 /\ exists writes,
                     requests_of
                       (run store
                          (updateSharedSummary toLowerCase env id query title summary author) w)
                     = GET_paged :: GET_engagement (engagement_id first) :: writes
                     /\ (writes = []
                         \/ exists body,
                             writes = [PUT_engagement (engagement_id first) body])))).
Proof.
  intros Hcfg Hid Hsrv. split.
  - intros Hq.
    apply (run_update_no_target store toLowerCase env id query title summary author
             NoTarget [] w w Hcfg).
    now apply run_updateTarget_nothing.
  - intros Hq Hok kept.
    pose proof (run_updateTarget_search store toLowerCase id query w w1 res Hid Hq Hsrv Hok)
      as Htarget.
    fold kept in Htarget.
    split; [|split].
    + intros r. unfold kept. rewrite filter_In, matchesQuery_true_iff.
      reflexivity.
    + intros Hnone. rewrite Hnone in Htarget. cbn [JS.sort] in Htarget.
      apply (run_update_no_target store toLowerCase env id query title summary author
               NoQueryMatch [GET_paged] w w1 Hcfg Htarget).
    + intros first rest Hsort. rewrite Hsort in Htarget.
      destruct (sort_head kept first rest Hsort) as (Hin & Hmax & Hfirst).
      repeat (split; [assumption|]).
      intros Hne. rewrite Hne in Htarget. split; [exact Htarget|].
      destruct (serve store (GET_engagement (engagement_id first)) w1)
        as [getRes w2] eqn:Hget.
      rewrite (run_update_from_target store toLowerCase env id query title summary author
                 (engagement_id first) [GET_paged] w w1 w2 getRes
                 Hcfg Htarget Hget).
      destruct (ok getRes).
      * destruct (metadata_body (record getRes)) as [currentBody|].
        -- cbv zeta.
           destruct (serve store (PUT_engagement (engagement_id first) _) w2)
             as [resUpdate w3].
           eexists. split; [reflexivity|]. right. eexists. reflexivity.
        -- eexists. split; [reflexivity|]. now left.
      * eexists. split; [reflexivity|]. now left.
Qed.

(** C10.  With a non-empty id the update does not depend on the query:
    the handler is the same program for any two queries, so against any
    store it returns the same result, sends the same requests and leaves
    the same state; and none of its requests is a page fetch. *)
Theorem update_with_id_ignores_query
  (env : Config) (id query1 query2 title summary author : option string) (w : W) :
  JS.truthy id = true ->
  updateSharedSummary toLowerCase env id query1 title summary author
  = updateSharedSummary toLowerCase env id query2 title summary author
  /\ handleUpdateSharedSummary toLowerCase env id query1 title summary author
     = handleUpdateSharedSummary toLowerCase env id query2 title summary author
  /\ run store (updateSharedSummary toLowerCase env id query1 title summary author) w
     = run store (updateSharedSummary toLowerCase env id query2 title summary author) w
  /\ existsb is_page_fetch
       (requests_of (run store (updateSharedSummary toLowerCase env id query1 title summary author) w))
     = false.
Proof.
  intros Hid.
  assert (Hsame : updateSharedSummary toLowerCase env id query1 title summary author
                  = updateSharedSummary toLowerCase env id query2 title summary author).
  { destruct id as [[|c s]|]; try discriminate Hid. reflexivity. }
  split; [exact Hsame|].
  split; [exact Hsame|].
  split; [now rewrite Hsame|].
  destruct (checkHubSpotConfig env) as [|m ms] eqn:Hcfg.
  - destruct (serve store (GET_engagement (text id)) w) as [getRes w1] eqn:Hget.
    rewrite (run_update_from_target store toLowerCase env id query1 title summary author
               (text id) [] w w w1 getRes Hcfg
               (run_updateTarget_id store toLowerCase id query1 w Hid) Hget).
    destruct (ok getRes); [|reflexivity].
    destruct (metadata_body (record getRes)) as [currentBody|]; [|reflexivity].
    cbv zeta.
    destruct (serve store (PUT_engagement (text id) _) w1) as [resUpdate w2].
    reflexivity.
  - unfold updateSharedSummary.
    rewrite run_unconfigured by (rewrite Hcfg; discriminate). reflexivity.
Qed.

(** C9.  Parsing a body is total and lenient.  For every text: a field
    whose label starts no line is the empty string; the lines that start
    with none of the three labels do not count (parsing the text is parsing
    its labelled lines); and parsing raises nothing: once the current body
    of the target has been read, whatever it is, the update goes on to
    write the merged body. *)
Theorem parseBody_total_and_lenient (blob : string) :
  ((forall l, In l (JS.split_lines blob) -> JS.startsWith "Title: " l = false) ->
   currentTitle (parseBody blob) = "")
  /\ ((forall l, In l (JS.split_lines blob) -> JS.startsWith "Summary: " l = false) ->
      currentSummary (parseBody blob) = "")
  /\ ((forall l, In l (JS.split_lines blob) -> JS.startsWith "Author: " l = false) ->
      currentAuthor (parseBody blob) = "")
  /\ parseBody blob
     = fold_left parseLine (filter is_label_line (JS.split_lines blob))
         (mkFields "" "" "")
  /\ (forall (env : Config) (id query title summary author : option string)
             (w w1 : W) (getRes : Response),
         checkHubSpotConfig env = [] ->
         JS.truthy id = true ->
         serve store (GET_engagement (text id)) w = (getRes, w1) ->
         ok getRes = true ->
         metadata_body (record getRes) = Some blob ->
         requests_of (run store (updateSharedSummary toLowerCase env id query title summary author) w)
         = [ GET_engagement (text id);
             PUT_engagement (text id)
               (updatedBody title summary author (parseBody blob)) ]).
Proof.
  unfold parseBody. repeat split.
  - intros H. now rewrite fold_parseLine_title.
  - intros H. now rewrite fold_parseLine_summary.
  - intros H. now rewrite fold_parseLine_author.
  - apply fold_parseLine_labelled.
  - intros env id query title summary author w w1 getRes Hcfg Hid Hget Hok Hbody.
    rewrite (run_update_from_target store toLowerCase env id query title summary author
               (text id) [] w w w1 getRes Hcfg
               (run_updateTarget_id store toLowerCase id query w Hid) Hget).
    rewrite Hok, Hbody. cbv zeta.
    destruct (serve store (PUT_engagement (text id) _) w1) as [resUpdate w2].
    reflexivity.
Qed.

End UpdateClaims.

(* ================================================================== *)
(** * The update claims on the sample store *)
(* ================================================================== *)

Lemma update_without_id_targets_newest_match_witness :
  run crm (updateSharedSummary sample_toLowerCase sample_env None None
             (Some "") (Some "new text") None) sample_crm
  = (inr (failure
       "Error updating summary: Please provide an Engagement ID or a search query to locate the summary note."),
     [], sample_crm)
  /\ run crm (updateTarget sample_toLowerCase None (Some E_acute)) accent_crm
     = (inr "u", [GET_paged], accent_crm)
  /\ run crm (updateTarget sample_toLowerCase None (Some "BUDGET")) sample_crm
     = (inr "101", [GET_paged], sample_crm).
Proof.
  split; [|split].
  - exact (proj1 (update_without_id_targets_newest_match crm sample_toLowerCase sample_env
                    None None (Some "") (Some "new text") None
                    sample_crm sample_crm
                    (mkResponse true 200 "" sample_notes blank)
                    eq_refl eq_refl eq_refl) eq_refl).
  - destruct (update_without_id_targets_newest_match crm sample_toLowerCase sample_env
                None (Some E_acute) None (Some "S2") None
                accent_crm accent_crm
                (mkResponse true 200 "" (notes accent_crm) blank)
                eq_refl eq_refl eq_refl) as [_ Hquery].
    destruct (Hquery eq_refl eq_refl) as (_ & _ & Hnewest).
    destruct (Hnewest
                (mkNote "u" monday_0930 (Some (noteBody "T" e_acute "A")))
                [] eq_refl) as (_ & _ & _ & Hrun).
    exact (proj1 (Hrun eq_refl)).
  - destruct (update_without_id_targets_newest_match crm sample_toLowerCase sample_env
                None (Some "BUDGET") (Some "") (Some "new text") None
                sample_crm sample_crm
                (mkResponse true 200 "" sample_notes blank)
                eq_refl eq_refl eq_refl) as [_ Hquery].
    destruct (Hquery eq_refl eq_refl) as (_ & _ & Hnewest).
    destruct (Hnewest
                (mkNote "101" monday_0930 (Some (noteBody "Plan" "Budget review" "Ann")))
                [] eq_refl) as (_ & _ & _ & Hrun).
    exact (proj1 (Hrun eq_refl)).
Defined.

Lemma update_with_id_ignores_query_witness :
  run crm (updateSharedSummary sample_toLowerCase sample_env (Some "103") (Some "budget")
             None (Some "S2") None) sample_crm
  = run crm (updateSharedSummary sample_toLowerCase sample_env (Some "103") None
               None (Some "S2") None) sample_crm.
Proof.
  destruct (update_with_id_ignores_query crm sample_toLowerCase sample_env (Some "103")
              (Some "budget") None None (Some "S2") None sample_crm eq_refl)
    as (_ & _ & Hrun & _).
  exact Hrun.
Defined.

Lemma parseBody_total_and_lenient_witness :
  currentTitle (parseBody foreign_body) = ""
  /\ currentSummary (parseBody foreign_body) = ""
  /\ requests_of (run crm (updateSharedSummary sample_toLowerCase sample_env (Some "7") None
                             (Some "T") None None) foreign_crm)
     = [ GET_engagement "7";
         PUT_engagement "7" (noteBody "T" "" "Ann") ].
Proof.
  destruct (parseBody_total_and_lenient crm sample_toLowerCase foreign_body)
    as (Htitle & Hsummary & _ & _ & Hrun).
  split; [|split].
  - apply Htitle. intros l Hl. simpl in Hl.
    destruct Hl as [<-|[<-|[]]]; reflexivity.
  - apply Hsummary. intros l Hl. simpl in Hl.
    destruct Hl as [<-|[<-|[]]]; reflexivity.
  - exact (Hrun sample_env (Some "7") None (Some "T") None None
             foreign_crm foreign_crm
             (answer (mkNote "7" monday_0930 (Some foreign_body)))
             eq_refl eq_refl eq_refl eq_refl eq_refl).
Defined.

(* ================================================================== *)
(** * Scenarios on the sample store *)
(* ================================================================== *)

(** Filtering by date keeps the notes of that UTC day only. *)
Example list_by_date :
  result_of (run crm (getSummaries utc sample_env (Some "2024-03-04") None None None)
               sample_crm)
  = inr (success (Json
      [ mkNote "101" monday_0930 (Some (noteBody "Plan" "Budget review" "Ann")) ])).
Proof. vm_compute. reflexivity. Qed.

(** Filtering by day name ignores case; an unknown name is an error. *)
Example list_by_day :
  result_of (run crm (getSummaries utc sample_env None (Some "MONDAY") None None)
               sample_crm)
  = inr (success (Json
      [ mkNote "101" monday_0930 (Some (noteBody "Plan" "Budget review" "Ann")) ]))
  /\ result_of (run crm (getSummaries utc sample_env None (Some "funday") None None)
                  sample_crm)
     = inr (failure "Error retrieving summaries: Invalid dayOfWeek provided: funday").
Proof. split; vm_compute; reflexivity. Qed.

(** In a zone five and a half hours ahead of UTC the same notes fall in
    another window of the day. *)
Example list_by_time_in_another_zone :
  result_of (run crm (getSummaries (fun _ => 19800000) sample_env None None None
                        (Some (mkTimeRange "14:00" "14:30"))) sample_crm)
  = inr (success (Json
      [ mkNote "103" tuesday_0859 (Some (noteBody "Sync" "Weekly sync" "Cy")) ])).
Proof. vm_compute. reflexivity. Qed.

(** Records with the same timestamp come out in the order of the page. *)
Example sort_keeps_ties_in_order :
  JS.sort byTimestampDesc
    [ mkNote "a" 5 None; mkNote "b" 9 None; mkNote "c" 5 None; mkNote "d" 9 None ]
  = [ mkNote "b" 9 None; mkNote "d" 9 None; mkNote "a" 5 None; mkNote "c" 5 None ].
Proof. reflexivity. Qed.

(** Update by query with an empty title and a new summary: the title stays,
    the summary changes. *)
Example update_by_query_merges :
  fst (run crm (updateSharedSummary sample_toLowerCase sample_env None (Some "budget")
                  (Some "") (Some "new text") None) sample_crm)
  = (inr (success (Text "Summary updated successfully. Engagement ID: 101")),
     [ GET_paged; GET_engagement "101";
       PUT_engagement "101" (noteBody "Plan" "new text" "Ann") ]).
Proof. vm_compute. reflexivity. Qed.

(** Delete without id and without filter removes the newest note. *)
Example delete_defaults_to_newest :
  requests_of (run crm (handleDeleteSharedSummary utc sample_env None None None None None)
                 sample_crm)
  = [ GET_paged; DELETE_engagement "102" ].
Proof. vm_compute. reflexivity. Qed.

(** Create, then update the summary, then read the body back. *)
Example create_then_update :
  let '(_, _, c1) := run crm (createSharedSummary sample_parseInt sample_env "T" "S" "A") sample_crm in
  let '(_, _, c2) :=
    run crm (updateSharedSummary sample_toLowerCase sample_env (Some "104") None None (Some "S2") None) c1 in
  option_map parseBody (metadata_body (record (fst (serve crm (GET_engagement "104") c2))))
  = Some (mkFields "T" "S2" "A").
Proof. vm_compute. reflexivity. Qed.

(* ================================================================== *)
(** * More on the codec: what an update writes *)
(* ================================================================== *)

Section RewriteFacts.

Import StringFacts.

Lemma split_lines_no_newline (s l : string) :
  In l (JS.split_lines s) -> JS.no_newline l = true.
Proof.
  revert l. induction s as [|c s IH]; simpl; intros l Hl.
  - destruct Hl as [<-|[]]. reflexivity.
  - destruct (Ascii.eqb c JS.newline) eqn:Ec.
    + destruct Hl as [<-|Hl]; [reflexivity | now apply IH].
    + destruct (JS.split_lines s) as [|l0 ls] eqn:Es.
      * destruct Hl as [<-|[]]. simpl. now rewrite Ec.
      * destruct Hl as [<-|Hl].
        -- simpl. rewrite Ec. simpl. apply IH. now left.
        -- apply IH. now right.
Qed.

Lemma drop_no_newline (n : nat) (s : string) :
  JS.no_newline s = true -> JS.no_newline (JS.drop n s) = true.
Proof.
  revert s. induction n as [|n IH]; intros s H; [destruct s; exact H|].
  destruct s as [|c s]; [reflexivity|].
  simpl in H. apply andb_true_iff in H as [_ H]. simpl. now apply IH.
Qed.

Lemma replace_no_newline (pat s : string) :
  JS.no_newline s = true -> JS.no_newline (JS.replace pat "" s) = true.
Proof.
  induction s as [|c s IH]; intros H.
  - destruct pat; reflexivity.
  - cbn [JS.replace]. destruct (String.prefix pat (String c s)).
    + simpl String.append. now apply drop_no_newline.
    + simpl in *. apply andb_true_iff in H as [Hc H].
      now rewrite Hc, IH.
Qed.

Lemma parseLine_single_line (cur : Fields) (line : string) :
  single_line cur -> JS.no_newline line = true -> single_line (parseLine cur line).
Proof.
  intros (Ht & Hs & Ha) Hl. unfold parseLine.
  destruct (JS.startsWith "Title: " line);
    [|destruct (JS.startsWith "Summary: " line);
      [|destruct (JS.startsWith "Author: " line)]];
    repeat split; simpl; try assumption; now apply replace_no_newline.
Qed.

(** Whatever the body, the three parsed fields hold no newline. *)
Lemma parseBody_single_line (blob : string) : single_line (parseBody blob).
Proof.
  unfold parseBody.
  assert (Hgen : forall lines init,
             (forall l, In l lines -> JS.no_newline l = true) ->
             single_line init -> single_line (fold_left parseLine lines init)).
  { induction lines as [|l lines IH]; intros init Hl Hi; [exact Hi|].
    simpl. apply IH.
    - intros l' Hl'. apply Hl. now right.
    - apply parseLine_single_line; [exact Hi | apply Hl; now left]. }
  apply Hgen.
  - intros l Hl. now apply (split_lines_no_newline blob).
  - repeat split; reflexivity.
Qed.

Lemma merged_no_newline (supplied : option string) (previous : string) :
  no_newline_arg supplied = true -> JS.no_newline previous = true ->
  JS.no_newline (merged supplied previous) = true.
Proof.
  unfold no_newline_arg, text.
  destruct supplied as [[|c s]|]; simpl; intros H Hp; assumption.
Qed.

Lemma merged_twice (supplied : option string) (previous : string) :
  merged supplied (merged supplied previous) = merged supplied previous.
Proof. destruct supplied as [[|c s]|]; reflexivity. Qed.

Lemma updatedBody_merged (title summary author : option string) (cur : Fields) :
  updatedBody title summary author cur
  = noteBody (merged title (currentTitle cur)) (merged summary (currentSummary cur))
             (merged author (currentAuthor cur)).
Proof.
  unfold updatedBody, newTitle, newSummary, newAuthor.
  now rewrite !or_else_merged.
Qed.

Lemma parse_labelled_lines (t s a : string) (init : Fields) :
  fold_left parseLine ["Title: " ++ t; "Summary: " ++ s; "Author: " ++ a] init
  = mkFields t s a.
Proof.
  unfold fold_left.
  now rewrite parseLine_title, parseLine_summary, parseLine_author.
Qed.

(** The body written by an update, line by line and parsed back. *)
Lemma updatedBody_lines (blob : string) (title summary author : option string) :
  no_newline_arg title = true ->
  no_newline_arg summary = true ->
  no_newline_arg author = true ->
  let cur := parseBody blob in
  let written := updatedBody title summary author cur in
  JS.split_lines written
  = [ "Title: " ++ merged title (currentTitle cur);
      "Summary: " ++ merged summary (currentSummary cur);
      "Author: " ++ merged author (currentAuthor cur) ]
  /\ parseBody written
     = mkFields (merged title (currentTitle cur))
                (merged summary (currentSummary cur))
                (merged author (currentAuthor cur)).
Proof.
  intros Ht Hs Ha cur written.
  destruct (parseBody_single_line blob) as (Ct & Cs & Ca). fold cur in Ct, Cs, Ca.
  assert (Hlines : JS.split_lines written
                   = [ "Title: " ++ merged title (currentTitle cur);
                       "Summary: " ++ merged summary (currentSummary cur);
                       "Author: " ++ merged author (currentAuthor cur) ]).
  { unfold written. rewrite updatedBody_merged.
    apply split_lines_noteBody; now apply merged_no_newline. }
  split; [exact Hlines|].
  unfold parseBody at 1. rewrite Hlines. apply parse_labelled_lines.
Qed.

(** X1.  Whatever text the store holds for a note, the body an update writes
    for it has exactly three lines, the labelled title, summary and author,
    and parses back to the merged fields: lines of the old body without label
    are not carried over.  The values supplied must hold no newline. *)
Theorem update_writes_three_labelled_lines
  (blob : string) (title summary author : option string) :
  no_newline_arg title = true ->
  no_newline_arg summary = true ->
  no_newline_arg author = true ->
  let cur := parseBody blob in
  let written := updatedBody title summary author cur in
  JS.split_lines written
  = [ "Title: " ++ merged title (currentTitle cur);
      "Summary: " ++ merged summary (currentSummary cur);
      "Author: " ++ merged author (currentAuthor cur) ]
  /\ parseBody written
     = mkFields (merged title (currentTitle cur))
                (merged summary (currentSummary cur))
                (merged author (currentAuthor cur)).
Proof.
  intros Ht Hs Ha. now apply updatedBody_lines.
Qed.

Lemma update_writes_three_labelled_lines_witness :
  parseBody (updatedBody (Some "T") None None (parseBody foreign_body))
  = mkFields "T" "" "Ann".
Proof.
  exact (proj2 (update_writes_three_labelled_lines foreign_body (Some "T") None None
                  eq_refl eq_refl eq_refl)).
Defined.

(** X2.  Updating twice with the same values writes the same body the second
    time: the merge followed by the template is idempotent on what the
    parser reads.  The values supplied must hold no newline. *)
Theorem update_twice_writes_same_body
  (blob : string) (title summary author : option string) :
  no_newline_arg title = true ->
  no_newline_arg summary = true ->
  no_newline_arg author = true ->
  let written := updatedBody title summary author (parseBody blob) in
  updatedBody title summary author (parseBody written) = written.
Proof.
  intros Ht Hs Ha written.
  destruct (updatedBody_lines blob title summary author Ht Hs Ha) as [_ Hparse].
  fold written in Hparse. rewrite Hparse.
  unfold written. rewrite !updatedBody_merged. simpl.
  now rewrite !merged_twice.
Qed.

Lemma update_twice_writes_same_body_witness :
  updatedBody None (Some "S2") None
    (parseBody (updatedBody None (Some "S2") None (parseBody foreign_body)))
  = updatedBody None (Some "S2") None (parseBody foreign_body).
Proof.
  exact (update_twice_writes_same_body foreign_body None (Some "S2") None
           eq_refl eq_refl eq_refl).
Defined.

(** X3.  The template does not escape newlines, and the parser lets the last
    labelled line win: a summary that continues on a new line starting with
    "Title: " replaces the title when the body is parsed, and an author that
    continues with "Title: " or "Summary: " replaces that field. *)
Theorem embedded_label_line_overrides_field (t s a x : string) :
  JS.no_newline t = true -> JS.no_newline s = true ->
  JS.no_newline a = true -> JS.no_newline x = true ->
  parseBody (noteBody t (s ++ JS.LF ++ "Title: " ++ x) a) = mkFields x s a
  /\ parseBody (noteBody t s (a ++ JS.LF ++ "Title: " ++ x)) = mkFields x s a
  /\ parseBody (noteBody t s (a ++ JS.LF ++ "Summary: " ++ x)) = mkFields t x a.
Proof.
  intros Ht Hs Ha Hx.
  assert (Hnl : forall p v, JS.no_newline p = true -> JS.no_newline v = true ->
                            JS.no_newline (p ++ v) = true).
  { intros p v Hp Hv. rewrite no_newline_append. now rewrite Hp, Hv. }
  unfold parseBody, noteBody. repeat split.
  - rewrite <- (append_assoc "Title: " t), split_lines_first by now apply Hnl.
    rewrite (append_assoc s), (append_assoc JS.LF), <- (append_assoc "Summary: " s).
    rewrite split_lines_first by now apply Hnl.
    rewrite split_lines_first by now apply Hnl.
    rewrite split_lines_single by now apply Hnl.
    unfold fold_left.
    now rewrite parseLine_title, parseLine_summary, parseLine_title, parseLine_author.
  - rewrite <- (append_assoc "Title: " t), split_lines_first by now apply Hnl.
    rewrite <- (append_assoc "Summary: " s), split_lines_first by now apply Hnl.
    rewrite <- (append_assoc "Author: " a), split_lines_first by now apply Hnl.
    rewrite split_lines_single by now apply Hnl.
    unfold fold_left.
    now rewrite parseLine_title, parseLine_summary, parseLine_author, parseLine_title.
  - rewrite <- (append_assoc "Title: " t), split_lines_first by now apply Hnl.
    rewrite <- (append_assoc "Summary: " s), split_lines_first by now apply Hnl.
    rewrite <- (append_assoc "Author: " a), split_lines_first by now apply Hnl.
    rewrite split_lines_single by now apply Hnl.
    unfold fold_left.
    now rewrite parseLine_title, parseLine_summary, parseLine_author, parseLine_summary.
Qed.

Lemma embedded_label_line_overrides_field_witness :
  parseBody (noteBody "Plan" "Budget" ("Ann" ++ JS.LF ++ "Title: " ++ "Changed") )
  = mkFields "Changed" "Budget" "Ann".
Proof.
  destruct (embedded_label_line_overrides_field "Plan" "Budget" "Ann" "Changed"
              eq_refl eq_refl eq_refl eq_refl) as (_ & H & _).
  exact H.
Defined.

End RewriteFacts.

(* ================================================================== *)
(** * What the handlers send, and what they never do *)
(* ================================================================== *)

Section HandlerFacts.

Context {W : Type} (store : Store W) (LocalTZA : Z -> Z).
Context (toLowerCase : string -> string) (parseInt : string -> option Z).

(** A handler framed by the configuration check and the [try] block always
    returns a result. *)
Lemma guarded_returns (env : Config) (body : Prog ToolResult)
  (render : Exn -> string) (w : W) :
  exists r, result_of (run store (guarded env body render) w) = inr r.
Proof.
  destruct (checkHubSpotConfig env) as [|m ms] eqn:Hcfg.
  - rewrite run_guarded by assumption.
    destruct (run store body w) as [[[e|r] sent] w1]; eexists; reflexivity.
  - rewrite run_unconfigured by (rewrite Hcfg; discriminate).
    eexists; reflexivity.
Qed.

(** X4.  No exception escapes a handler: for every store, every state and
    all arguments, each of the handlers returns a tool result. *)
Theorem handlers_always_return_a_result
  (env : Config) (w : W)
  (t s a : string) (id query title summary author date dayOfWeek : option string)
  (limit : option Z) (timeRange : option TimeRange) :
  (exists r, result_of (run store (createSharedSummary parseInt env t s a) w) = inr r)
  /\ (exists r, result_of (run store (handleCreateSharedSummary parseInt env t s a) w) = inr r)
  /\ (exists r,
        result_of (run store (getSummaries LocalTZA env date dayOfWeek limit timeRange) w)
        = inr r)
  /\ (exists r,
        result_of (run store
                     (handleGetSummaries LocalTZA env date dayOfWeek limit timeRange) w)
        = inr r)
  /\ (exists r,
        result_of (run store (updateSharedSummary toLowerCase env id query title summary author) w)
        = inr r)
  /\ (exists r,
        result_of (run store
                     (handleUpdateSharedSummary toLowerCase env id query title summary author) w)
        = inr r)
  /\ (exists r,
        result_of (run store
                     (handleDeleteSharedSummary LocalTZA env id date dayOfWeek limit
                        timeRange) w)
        = inr r).
Proof.
  repeat split; apply guarded_returns.
Qed.

Lemma checkHubSpotConfig_nil_iff (env : Config) :
  checkHubSpotConfig env = []
  <-> JS.nonempty (HUBSPOT_ACCESS_TOKEN env) = true
      /\ JS.nonempty (SHARED_CONTACT_ID env) = true.
Proof.
  unfold checkHubSpotConfig.
  destruct (JS.nonempty (HUBSPOT_ACCESS_TOKEN env)),
           (JS.nonempty (SHARED_CONTACT_ID env)); simpl;
    split; try discriminate; try (intros [? ?]; discriminate); auto.
Qed.

(** X5.  The configuration check passes exactly when both variables are
    non-empty; it names the access token when that one is empty and the
    contact id when that one is empty, in this order.  When it does not pass,
    every handler answers with the error naming the missing variables,
    sends no request and leaves the store as it is. *)
Theorem unconfigured_handlers_send_nothing
  (env : Config) (w : W)
  (t s a : string) (id query title summary author date dayOfWeek : option string)
  (limit : option Z) (timeRange : option TimeRange) :
  (checkHubSpotConfig env = []
   <-> JS.nonempty (HUBSPOT_ACCESS_TOKEN env) = true
       /\ JS.nonempty (SHARED_CONTACT_ID env) = true)
  /\ checkHubSpotConfig env
     = ((if JS.nonempty (HUBSPOT_ACCESS_TOKEN env) then [] else ["HUBSPOT_ACCESS_TOKEN"])
        ++ (if JS.nonempty (SHARED_CONTACT_ID env) then [] else ["SHARED_CONTACT_ID"]))%list
  /\ (checkHubSpotConfig env <> [] ->
      let answer :=
        (inr (failure ("Error: Missing required environment variables: "
                       ++ JS.join ", " (checkHubSpotConfig env))),
         @nil Request, w) in
      run store (createSharedSummary parseInt env t s a) w = answer
      /\ run store (getSummaries LocalTZA env date dayOfWeek limit timeRange) w = answer
      /\ run store (handleGetSummaries LocalTZA env date dayOfWeek limit timeRange) w
         = answer
      /\ run store (updateSharedSummary toLowerCase env id query title summary author) w = answer
      /\ run store (handleDeleteSharedSummary LocalTZA env id date dayOfWeek limit
                      timeRange) w
         = answer).
Proof.
  split; [apply checkHubSpotConfig_nil_iff|]. split.
  - unfold checkHubSpotConfig.
    destruct (JS.nonempty (HUBSPOT_ACCESS_TOKEN env)),
             (JS.nonempty (SHARED_CONTACT_ID env)); reflexivity.
  - intros Hcfg answer. repeat split; now apply run_unconfigured.
Qed.

End HandlerFacts.

Lemma unconfigured_handlers_send_nothing_witness :
  run crm (handleDeleteSharedSummary utc (mkConfig "" "") (Some "101") None None None None)
    sample_crm
  = (inr (failure
       "Error: Missing required environment variables: HUBSPOT_ACCESS_TOKEN, SHARED_CONTACT_ID"),
     [], sample_crm).
Proof.
  destruct (unconfigured_handlers_send_nothing crm utc sample_toLowerCase sample_parseInt
              (mkConfig "" "") sample_crm
              "" "" "" (Some "101") None None None None None None None None)
    as (_ & _ & H).
  assert (Hcfg : checkHubSpotConfig (mkConfig "" "") <> []) by discriminate.
  destruct (H Hcfg) as (_ & _ & _ & _ & Hdelete).
  exact Hdelete.
Defined.

Section RequestShapes.

Context {W : Type} (store : Store W) (LocalTZA : Z -> Z).
Context (toLowerCase : string -> string).

(** X6.  Listing only reads: whatever the arguments and the answers of the
    store, the requests of [getSummaries] and of [handleGetSummaries] are the
    page fetch alone, or nothing when the configuration is missing. *)
Theorem listing_only_fetches_the_page
  (env : Config) (date dayOfWeek : option string) (limit : option Z)
  (timeRange : option TimeRange) (w : W) :
  let sent := requests_of
                (run store (getSummaries LocalTZA env date dayOfWeek limit timeRange) w) in
  let sent' := requests_of
                 (run store
                    (handleGetSummaries LocalTZA env date dayOfWeek limit timeRange) w) in
  (sent = [] \/ sent = [GET_paged]) /\ (sent' = [] \/ sent' = [GET_paged]).
Proof.
  cbv zeta. unfold getSummaries, handleGetSummaries.
  destruct (checkHubSpotConfig env) as [|m ms] eqn:Hcfg.
  - rewrite !run_guarded by assumption.
    rewrite !run_bind, !run_fetch. cbn [fst snd].
    destruct (serve store GET_paged w) as [res w1]. cbn [fst snd].
    rewrite !run_bind, !run_check_ok.
    destruct (ok res); [|split; right; reflexivity].
    rewrite !run_bind, !run_liftE.
    destruct (selectSummaries _ _ _ _ _ _), (filterAndSort _ _ _ _ _);
      split; right; reflexivity.
  - rewrite !run_unconfigured by (rewrite Hcfg; discriminate).
    split; left; reflexivity.
Qed.

(** The choice of the target of an update fetches the page at most. *)
Lemma run_updateTarget_shape (id query : option string) (w : W) :
  exists out sent w1,
    run store (updateTarget toLowerCase id query) w = (out, sent, w1)
    /\ (sent = [] \/ sent = [GET_paged]).
Proof.
  unfold updateTarget. rewrite run_bind.
  destruct (negb (JS.truthy id) && JS.truthy query).
  - rewrite run_bind, run_fetch. cbn [fst snd].
    destruct (serve store GET_paged w) as [res w1]. cbn [fst snd].
    rewrite run_bind, run_check_ok.
    destruct (ok res).
    + destruct (JS.sort byTimestampDesc _) as [|first rest].
      * do 3 eexists. split; [reflexivity | now right].
      * cbn [run]. destruct (negb (JS.truthy (Some (engagement_id first))));
          do 3 eexists; (split; [reflexivity | now right]).
    + do 3 eexists. split; [reflexivity | now right].
  - cbn [run]. destruct (negb (JS.truthy id));
      do 3 eexists; (split; [reflexivity | now left]).
Qed.

(** X7.  An update writes at most once and only what it has just read:
    its requests are reads (the page fetch, the read of the target),
    possibly followed by one PUT, which comes last and right after the read
    of the same record.  It never sends a POST or a DELETE. *)
Theorem update_reads_then_writes_once
  (env : Config) (id query title summary author : option string) (w : W) :
  let sent := requests_of
                (run store (updateSharedSummary toLowerCase env id query title summary author) w) in
  exists reads,
    forallb is_read reads = true
    /\ (sent = reads
        \/ exists target body,
            sent = (reads ++ [GET_engagement target; PUT_engagement target body])%list).
Proof.
  cbv zeta.
  destruct (checkHubSpotConfig env) as [|m ms] eqn:Hcfg.
  - destruct (run_updateTarget_shape id query w) as (out & sent & w0 & Hrun & Hsent).
    destruct out as [e|targetId].
    + rewrite (run_update_no_target store toLowerCase env id query title summary author
                 e sent w w0 Hcfg Hrun).
      exists sent. split; [|now left].
      destruct Hsent as [->| ->]; reflexivity.
    + destruct (serve store (GET_engagement targetId) w0) as [getRes w1] eqn:Hget.
      rewrite (run_update_from_target store toLowerCase env id query title summary author
                 targetId sent w w0 w1 getRes Hcfg Hrun Hget).
      destruct (ok getRes).
      * destruct (metadata_body (record getRes)) as [currentBody|].
        -- cbv zeta.
           destruct (serve store (PUT_engagement targetId _) w1) as [resUpdate w2].
           exists sent. split; [destruct Hsent as [->| ->]; reflexivity|].
           right. do 2 eexists. reflexivity.
        -- exists (sent ++ [GET_engagement targetId])%list.
           split; [destruct Hsent as [->| ->]; reflexivity | now left].
      * exists (sent ++ [GET_engagement targetId])%list.
        split; [destruct Hsent as [->| ->]; reflexivity | now left].
  - unfold updateSharedSummary.
    rewrite run_unconfigured by (rewrite Hcfg; discriminate).
    exists []. split; [reflexivity | now left].
Qed.

(** X8.  What a delete sends, in every case: nothing when the
    configuration is missing; with an id, the DELETE of that id alone;
    without one, the page fetch, followed by the DELETE of the selected record
    only if the fetch was answered ok and the selection raised nothing.  So
    it sends at most one DELETE, as its last request, never a PUT or a POST,
    and no DELETE after a refused page fetch or a failed selection. *)
Theorem delete_sends_one_delete_at_most
  (env : Config) (id date dayOfWeek : option string) (limit : option Z)
  (timeRange : option TimeRange) (w : W) :
  requests_of
    (run store
       (handleDeleteSharedSummary LocalTZA env id date dayOfWeek limit timeRange) w)
  = match checkHubSpotConfig env with
    | _ :: _ => []
    | [] =>
        if JS.truthy id then [DELETE_engagement (text id)]
        else
          let res := fst (serve store GET_paged w) in
          if ok res then
            match selectDeleteTarget LocalTZA date dayOfWeek limit timeRange
                    (results res) with
            | inr target => [GET_paged; DELETE_engagement target]
            | inl _ => [GET_paged]
            end
          else [GET_paged]
    end.
Proof.
  unfold handleDeleteSharedSummary.
  destruct (checkHubSpotConfig env) as [|m ms] eqn:Hcfg.
  - rewrite run_guarded by assumption. rewrite run_bind.
    destruct (JS.truthy id) eqn:Hid; cbn [negb].
    + cbn [run]. rewrite run_bind, run_fetch. cbn [fst snd].
      destruct (serve store (DELETE_engagement (text id)) w) as [resDelete w1].
      cbn [fst snd]. rewrite run_bind, run_check_ok.
      destruct (ok resDelete); reflexivity.
    + rewrite run_bind, run_fetch. cbn [fst snd].
      destruct (serve store GET_paged w) as [res w1]. cbn [fst snd].
      rewrite run_bind, run_check_ok.
      destruct (ok res); [|reflexivity].
      rewrite run_liftE.
      destruct (selectDeleteTarget _ _ _ _ _ _) as [e|target]; [reflexivity|].
      rewrite run_bind, run_fetch. cbn [fst snd].
      destruct (serve store (DELETE_engagement target) w1) as [resDelete w2].
      cbn [fst snd]. rewrite run_bind, run_check_ok.
      destruct (ok resDelete); reflexivity.
  - rewrite run_unconfigured by (rewrite Hcfg; discriminate). reflexivity.
Qed.

End RequestShapes.

(* ================================================================== *)
(** * Creating *)
(* ================================================================== *)

Section CreateFacts.

Context {W : Type} (store : Store W) (parseInt : string -> option Z).

(** X9.  A configured create reads the clock once and sends exactly one
    request: the POST of a note stamped with that instant, for the contact
    that [parseInt] reads in [SHARED_CONTACT_ID] ([null] when it reads no
    number), whose body parses back to the title, summary and author given
    (these holding no newline).  It answers with the identifier the store
    assigned, or with the HTTP code and message of the store when the POST is
    refused. *)
Theorem create_posts_one_decodable_note
  (env : Config) (title summary author : string) (w w0 w1 : W) (now : Z)
  (res : Response) :
  checkHubSpotConfig env = [] ->
  JS.no_newline title = true ->
  JS.no_newline summary = true ->
  JS.no_newline author = true ->
  tick store w = (now, w0) ->
  serve store (POST_engagement now (parseInt (SHARED_CONTACT_ID env))
                 (noteBody title summary author)) w0 = (res, w1) ->
  run store (createSharedSummary parseInt env title summary author) w
  = (inr (if ok res
          then success (Text ("Summary created successfully. Engagement ID: "
                              ++ engagement_id (record res)))
          else failure ("Error creating summary: HTTP-Code: "
                        ++ JS.toString (status res) ++ JS.LF
                        ++ "Message: " ++ message res)),
     [POST_engagement now (parseInt (SHARED_CONTACT_ID env))
        (noteBody title summary author)],
     w1)
  /\ parseBody (noteBody title summary author) = mkFields title summary author.
Proof.
  intros Hcfg Ht Hs Ha Htick Hpost. split.
  - unfold createSharedSummary. rewrite run_guarded by assumption.
    unfold getTime. cbn [bind run]. rewrite Htick.
    rewrite run_bind, run_fetch, Hpost. cbn [fst snd].
    rewrite run_bind, run_check_ok.
    destruct (ok res); reflexivity.
  - unfold parseBody. rewrite split_lines_noteBody by assumption.
    apply parse_labelled_lines.
Qed.

End CreateFacts.

Lemma create_posts_one_decodable_note_witness :
  requests_of (run crm (createSharedSummary sample_parseInt sample_env "T" "S" "A")
                 sample_crm)
  = [POST_engagement 1709700000000 (Some 42) (noteBody "T" "S" "A")]
  /\ requests_of
       (run crm (createSharedSummary (fun _ => None) sample_env "T" "S" "A") sample_crm)
     = [POST_engagement 1709700000000 None (noteBody "T" "S" "A")].
Proof.
  split.
  - destruct (create_posts_one_decodable_note crm sample_parseInt sample_env "T" "S" "A"
                sample_crm
                (mkCrm sample_notes 104 1709700000001)
                (mkCrm (mkNote "104" 1709700000000 (Some (noteBody "T" "S" "A"))
                          :: sample_notes) 105 1709700000001)
                1709700000000
                (answer (mkNote "104" 1709700000000 (Some (noteBody "T" "S" "A"))))
                eq_refl eq_refl eq_refl eq_refl eq_refl eq_refl) as [Hrun _].
    exact (f_equal (fun r => requests_of r) Hrun).
  - destruct (create_posts_one_decodable_note crm (fun _ => None) sample_env "T" "S" "A"
                sample_crm
                (mkCrm sample_notes 104 1709700000001)
                (mkCrm (mkNote "104" 1709700000000 (Some (noteBody "T" "S" "A"))
                          :: sample_notes) 105 1709700000001)
                1709700000000
                (answer (mkNote "104" 1709700000000 (Some (noteBody "T" "S" "A"))))
                eq_refl eq_refl eq_refl eq_refl eq_refl eq_refl) as [Hrun _].
    exact (f_equal (fun r => requests_of r) Hrun).
Defined.

(* ================================================================== *)
(** * More on deleting *)
(* ================================================================== *)

Section DeleteMore.

Context {W : Type} (store : Store W) (LocalTZA : Z -> Z).

(** The first of the records kept by [slice(0, n)] is the first record,
    whatever [n >= 1]. *)
Lemma slice0_head {A : Type} (n : Z) (l : list A) :
  1 <= n -> hd_error (JS.slice0 n l) = hd_error l.
Proof.
  intros Hn. rewrite slice0_firstn by lia.
  destruct (Z.to_nat n) as [|k] eqn:E; [lia|].
  destruct l; reflexivity.
Qed.

Lemma deleteCount_positive (limit : option Z) : 1 <= deleteCount limit.
Proof.
  unfold deleteCount, JS.truthy_num, JS.num_gt, num.
  destruct limit as [n|]; [|simpl; lia].
  destruct (negb (n =? 0) && (0 <? n)) eqn:E; [|lia].
  apply andb_true_iff in E as [_ E]. apply Z.ltb_lt in E. lia.
Qed.

(** The record chosen for deletion is the head of the sorted survivors. *)
Lemma selectDeleteTarget_head (date dayOfWeek : option string) (limit : option Z)
  (timeRange : option TimeRange) (page : list Note) :
  selectDeleteTarget LocalTZA date dayOfWeek limit timeRange page
  = match filterAndSort LocalTZA date dayOfWeek timeRange page with
    | inl e => inl e
    | inr [] => inl NoFilterMatch
    | inr (first :: _) => inr (engagement_id first)
    end.
Proof.
  unfold selectDeleteTarget.
  destruct (filterAndSort _ _ _ _ _) as [e|sorted]; [reflexivity|].
  pose proof (slice0_head (deleteCount limit) sorted (deleteCount_positive limit))
    as Hhd.
  destruct (JS.slice0 (deleteCount limit) sorted) as [|x xs], sorted as [|y ys];
    simpl in Hhd; try discriminate; [reflexivity|].
  now injection Hhd as ->.
Qed.

Lemma run_handleDelete_same_choice (env : Config) (id date dayOfWeek : option string)
  (l1 l2 : option Z) (timeRange : option TimeRange) (w : W) :
  (forall page,
      selectDeleteTarget LocalTZA date dayOfWeek l1 timeRange page
      = selectDeleteTarget LocalTZA date dayOfWeek l2 timeRange page) ->
  run store (handleDeleteSharedSummary LocalTZA env id date dayOfWeek l1 timeRange) w
  = run store (handleDeleteSharedSummary LocalTZA env id date dayOfWeek l2 timeRange) w.
Proof.
  intros Hsel. unfold handleDeleteSharedSummary.
  destruct (checkHubSpotConfig env) as [|m ms] eqn:Hcfg.
  - rewrite !run_guarded by assumption. rewrite !run_bind.
    destruct (negb (JS.truthy id)); [|reflexivity].
    rewrite !run_bind, !run_fetch. cbn [fst snd].
    destruct (serve store GET_paged w) as [res w1]. cbn [fst snd].
    rewrite !run_bind, !run_check_ok. destruct (ok res); [|reflexivity].
    rewrite !run_liftE, Hsel. reflexivity.
  - rewrite !run_unconfigured by (rewrite Hcfg; discriminate). reflexivity.
Qed.

(** X10.  The limit has no effect on a delete: whatever two limits are
    given (integers, or none), the handler returns the same result, sends the
    same requests and leaves the same state.  Only the first of the selected
    candidates is ever deleted. *)
Theorem delete_ignores_the_limit
  (env : Config) (id date dayOfWeek : option string) (limit1 limit2 : option Z)
  (timeRange : option TimeRange) (w : W) :
  run store (handleDeleteSharedSummary LocalTZA env id date dayOfWeek limit1 timeRange) w
  = run store (handleDeleteSharedSummary LocalTZA env id date dayOfWeek limit2 timeRange) w.
Proof.
  apply run_handleDelete_same_choice. intros page.
  now rewrite !selectDeleteTarget_head.
Qed.

(** X11.  With a non-empty id a delete does not look at the filters: it is
    the same program whatever date, day, limit and time range are given (an
    unknown day name included), and when configured it sends the DELETE of
    that id as its only request and reports the answer of the store. *)
Theorem delete_with_id_ignores_filters
  (env : Config) (id : option string)
  (date1 date2 day1 day2 : option string) (limit1 limit2 : option Z)
  (range1 range2 : option TimeRange) (w w1 : W) (res : Response) :
  JS.truthy id = true ->
  handleDeleteSharedSummary LocalTZA env id date1 day1 limit1 range1
  = handleDeleteSharedSummary LocalTZA env id date2 day2 limit2 range2
  /\ (checkHubSpotConfig env = [] ->
      serve store (DELETE_engagement (text id)) w = (res, w1) ->
      run store (handleDeleteSharedSummary LocalTZA env id date1 day1 limit1 range1) w
      = (inr (if ok res
              then success (Text ("Summary deleted successfully. Engagement ID: "
                                  ++ text id))
              else failure ("Error deleting summary: HTTP-Code: "
                            ++ JS.toString (status res) ++ JS.LF
                            ++ "Message: " ++ message res)),
         [DELETE_engagement (text id)], w1)).
Proof.
  intros Hid. split.
  - destruct id as [[|c s]|]; try discriminate Hid. reflexivity.
  - intros Hcfg Hsrv. unfold handleDeleteSharedSummary.
    rewrite run_guarded by assumption. rewrite run_bind, Hid. cbn [negb run].
    rewrite run_bind, run_fetch, Hsrv. cbn [fst snd].
    rewrite run_bind, run_check_ok. destruct (ok res); reflexivity.
Qed.


End DeleteMore.

Lemma delete_with_id_ignores_filters_witness :
  run crm (handleDeleteSharedSummary utc sample_env (Some "103") (Some "1999-01-01")
             (Some "funday") (Some (-4)) None) sample_crm
  = (inr (success (Text "Summary deleted successfully. Engagement ID: 103")),
     [DELETE_engagement "103"],
     mkCrm
       [ mkNote "101" monday_0930 (Some (noteBody "Plan" "Budget review" "Ann"));
         mkNote "102" tuesday_1001 (Some (noteBody "Retro" "What went well" "Bob")) ]
       104 1709700000000).
Proof.
  destruct (delete_with_id_ignores_filters crm utc sample_env (Some "103")
              (Some "1999-01-01") None (Some "funday") None (Some (-4)) None None None
              sample_crm
              (mkCrm
                 [ mkNote "101" monday_0930 (Some (noteBody "Plan" "Budget review" "Ann"));
                   mkNote "102" tuesday_1001
                     (Some (noteBody "Retro" "What went well" "Bob")) ]
                 104 1709700000000)
              (mkResponse true 204 "" [] blank) eq_refl) as [_ Hrun].
  exact (Hrun eq_refl eq_refl).
Defined.


(* ================================================================== *)
(** * The two listing handlers, and the size of a listing *)
(* ================================================================== *)

Section ListingMore.

Context {W : Type} (store : Store W) (LocalTZA : Z -> Z).

Lemma applyLimit_truncate (limit : option Z) (sorted : list Note) :
  (forall n, limit = Some n -> 0 <= n) ->
  applyLimit limit sorted = inr (truncate limit sorted).
Proof.
  intros Hn. unfold applyLimit, truncate.
  destruct (JS.truthy_num limit && JS.num_gt limit 0) eqn:E; [reflexivity|].
  destruct limit as [n|]; [|reflexivity].
  specialize (Hn n eq_refl). unfold JS.truthy_num, JS.num_gt, JS.num_lt in *.
  destruct (n =? 0) eqn:E0; [reflexivity|].
  apply Z.eqb_neq in E0. cbn [negb andb] in *.
  apply Z.ltb_ge in E. lia.
Qed.

Lemma truncate_negative (n : Z) (sorted : list Note) :
  n < 0 -> truncate (Some n) sorted = sorted.
Proof.
  intros Hn. unfold truncate, JS.truthy_num, JS.num_gt.
  replace (0 <? n) with false by (symmetry; apply Z.ltb_ge; lia).
  now rewrite andb_false_r.
Qed.

Lemma run_handleGetSummaries_as (env : Config) (date dayOfWeek : option string)
  (limit : option Z) (timeRange : option TimeRange) (w : W)
  (select : list Note -> Exn + list Note) :
  (forall page,
      select page
      = match filterAndSort LocalTZA date dayOfWeek timeRange page with
        | inl e => inl e
        | inr sorted => inr (truncate limit sorted)
        end) ->
  run store (handleGetSummaries LocalTZA env date dayOfWeek limit timeRange) w
  = run store
      (guarded env
         (res <- fetch GET_paged ;;
          _ <- check_ok res ;;
          results <- liftE (select (results res)) ;;
          Ret (success (Json results)))
         (fun error => "Error retrieving summaries: " ++ error_message error)) w.
Proof.
  intros Hsel. unfold handleGetSummaries.
  destruct (checkHubSpotConfig env) as [|m ms] eqn:Hcfg.
  - rewrite !run_guarded by assumption.
    rewrite !run_bind, !run_fetch. cbn [fst snd].
    destruct (serve store GET_paged w) as [res w1]. cbn [fst snd].
    rewrite !run_bind, !run_check_ok. destruct (ok res); [|reflexivity].
    rewrite !run_bind, !run_liftE, Hsel.
    destruct (filterAndSort _ _ _ _ _); reflexivity.
  - rewrite !run_unconfigured by (rewrite Hcfg; discriminate). reflexivity.
Qed.

Lemma run_handleGetSummaries_same_truncate (env : Config)
  (date dayOfWeek : option string) (l1 l2 : option Z)
  (timeRange : option TimeRange) (w : W) :
  (forall sorted, truncate l1 sorted = truncate l2 sorted) ->
  run store (handleGetSummaries LocalTZA env date dayOfWeek l1 timeRange) w
  = run store (handleGetSummaries LocalTZA env date dayOfWeek l2 timeRange) w.
Proof.
  intros Hsame. unfold handleGetSummaries.
  destruct (checkHubSpotConfig env) as [|m ms] eqn:Hcfg.
  - rewrite !run_guarded by assumption.
    rewrite !run_bind, !run_fetch. cbn [fst snd].
    destruct (serve store GET_paged w) as [res w1]. cbn [fst snd].
    rewrite !run_bind, !run_check_ok. destruct (ok res); [|reflexivity].
    rewrite !run_bind, !run_liftE.
    destruct (filterAndSort _ _ _ _ _) as [e|sorted]; [reflexivity|].
    cbn [run]. now rewrite Hsame.
  - rewrite !run_unconfigured by (rewrite Hcfg; discriminate). reflexivity.
Qed.

(** X13.  The listing handler of the single-file server and [getSummaries]
    behave alike for every limit that is absent or not negative.  They differ
    on a negative limit only: [handleGetSummaries] has no check of the limit
    and answers as if none had been given. *)
Theorem listing_handlers_differ_on_negative_limit_only
  (env : Config) (date dayOfWeek : option string) (limit : option Z)
  (timeRange : option TimeRange) (w : W) :
  ((forall n, limit = Some n -> 0 <= n) ->
   run store (handleGetSummaries LocalTZA env date dayOfWeek limit timeRange) w
   = run store (getSummaries LocalTZA env date dayOfWeek limit timeRange) w)
  /\ (forall n, limit = Some n -> n < 0 ->
        run store (handleGetSummaries LocalTZA env date dayOfWeek limit timeRange) w
        = run store (handleGetSummaries LocalTZA env date dayOfWeek None timeRange) w).
Proof.
  split.
  - intros Hn. unfold getSummaries. apply run_handleGetSummaries_as.
    intros page. unfold selectSummaries.
    destruct (filterAndSort _ _ _ _ _); [reflexivity|].
    now apply applyLimit_truncate.
  - intros n -> Hn. apply run_handleGetSummaries_same_truncate.
    intros sorted. now apply truncate_negative.
Qed.

End ListingMore.

Lemma listing_handlers_differ_on_negative_limit_only_witness :
  run crm (handleGetSummaries utc sample_env None None (Some 2) None) sample_crm
  = run crm (getSummaries utc sample_env None None (Some 2) None) sample_crm
  /\ run crm (handleGetSummaries utc sample_env None None (Some (-1)) None) sample_crm
     = run crm (handleGetSummaries utc sample_env None None None None) sample_crm.
Proof.
  split.
  - apply (proj1 (listing_handlers_differ_on_negative_limit_only crm utc sample_env
                    None None (Some 2) None sample_crm)).
    intros n Hn. injection Hn as <-. intro H. discriminate H.
  - exact (proj2 (listing_handlers_differ_on_negative_limit_only crm utc sample_env
                    None None (Some (-1)) None sample_crm) (-1) eq_refl eq_refl).
Defined.

(* ================================================================== *)
(** * The filters together *)
(* ================================================================== *)

Section FilterMore.

Context {W : Type} (store : Store W) (LocalTZA : Z -> Z).

Lemma filter_throw_inr {A E : Type} (p : A -> E + bool) (l l' : list A) :
  JS.filter_throw p l = inr l' ->
  l' = filter (fun x => match p x with inr true => true | _ => false end) l.
Proof.
  revert l'. induction l as [|x l IH]; simpl; intros l' H.
  - now injection H as <-.
  - destruct (p x) as [e|b]; [discriminate|].
    destruct (JS.filter_throw p l) as [e|ys]; [discriminate|].
    injection H as <-. rewrite (IH ys eq_refl). now destruct b.
Qed.

Lemma filterByDate_inr (date : option string) (page kept : list Note) :
  filterByDate date page = inr kept ->
  (exists keep, kept = filter keep page)
  /\ forall r, In r kept <-> In r page /\ date_matches date r.
Proof.
  unfold filterByDate, date_matches. intros H.
  destruct (JS.truthy date).
  - apply filter_throw_inr in H. subst kept. split; [eexists; reflexivity|].
    intros r. rewrite filter_In. split.
    + intros [Hin Hk]. split; [exact Hin|]. intros _. cbv zeta in Hk.
      destruct (JS.isoDate (engagement_timestamp r)) as [day|]; [|discriminate Hk].
      destruct (String.eqb_spec day (text date)) as [Heq|];
        [now rewrite Heq | discriminate Hk].
    + intros [Hin Hd]. split; [exact Hin|]. rewrite (Hd eq_refl).
      now rewrite String.eqb_refl.
  - injection H as <-. split.
    + exists (fun _ => true). clear. induction page; simpl; congruence.
    + intros r. split; [intros Hin; split; [exact Hin | discriminate] | tauto].
Qed.

Lemma own_property_dayMap (key : string) (n : Z) :
  JS.own_property dayMap key = Some n <->
  exists i, nth_error day_names i = Some key /\ n = Z.of_nat i.
Proof.
  split.
  - unfold dayMap, JS.own_property. intros H.
    repeat match type of H with
           | (if String.eqb ?k key then _ else _) = _ =>
               destruct (String.eqb_spec k key) as [<-|_]
           end;
      try discriminate H;
      injection H as <-.
    + now exists 0%nat.
    + now exists 1%nat.
    + now exists 2%nat.
    + now exists 3%nat.
    + now exists 4%nat.
    + now exists 5%nat.
    + now exists 6%nat.
  - intros [i [Hi ->]].
    do 7 (destruct i as [|i]; [injection Hi as <-; reflexivity|]).
    destruct i; discriminate.
Qed.

Lemma filterByDayOfWeek_inr (dayOfWeek : option string) (page kept : list Note) :
  filterByDayOfWeek LocalTZA dayOfWeek page = inr kept ->
  (exists keep, kept = filter keep page)
  /\ forall r, In r kept <-> In r page /\ day_matches LocalTZA dayOfWeek r.
Proof.
  unfold filterByDayOfWeek, day_matches, names_day. intros H.
  destruct (JS.truthy dayOfWeek).
  - unfold JS.get in H.
    destruct (JS.own_property dayMap (JS.toLowerCase (text dayOfWeek))) as [n|] eqn:Eown.
    + cbn [JS.is_undefined] in H. injection H as <-.
      split; [eexists; reflexivity|].
      intros r. rewrite filter_In. cbv zeta.
      apply own_property_dayMap in Eown as Hname. destruct Hname as [i [Hi ->]].
      split.
      * intros [Hin Hk]. split; [exact Hin|]. intros _. exists i. split; [exact Hi|].
        destruct (JS.getDay LocalTZA (engagement_timestamp r)) as [d|];
          [|discriminate]. simpl in Hk. apply Z.eqb_eq in Hk. now subst.
      * intros [Hin Hd]. split; [exact Hin|].
        destruct (Hd eq_refl) as [j [Hj Hday]]. rewrite Hday. simpl.
        assert (Hsame : Some (Z.of_nat i) = Some (Z.of_nat j)).
        { rewrite <- Eown. apply own_property_dayMap. now exists j. }
        injection Hsame as ->. apply Z.eqb_refl.
    + destruct (JS.mem_string _ JS.Object_prototype); [|discriminate].
      cbn [JS.is_undefined] in H. injection H as <-.
      split; [eexists; reflexivity|].
      intros r. rewrite filter_In. split.
      * intros [_ Hk]. destruct (JS.getDay LocalTZA _); discriminate.
      * intros [_ Hd]. destruct (Hd eq_refl) as [j [Hj _]].
        assert (Hsome : JS.own_property dayMap (JS.toLowerCase (text dayOfWeek))
                        = Some (Z.of_nat j))
          by (apply own_property_dayMap; now exists j).
        congruence.
  - injection H as <-. split.
    + exists (fun _ => true). clear. induction page; simpl; congruence.
    + intros r. split; [intros Hin; split; [exact Hin | discriminate] | tauto].
Qed.

Lemma filterByTimeRange_In (timeRange : option TimeRange) (page : list Note) :
  (exists keep, filterByTimeRange LocalTZA timeRange page = filter keep page)
  /\ forall r, In r (filterByTimeRange LocalTZA timeRange page)
               <-> In r page /\ time_matches LocalTZA timeRange r.
Proof.
  assert (Hall : exists keep, page = filter keep page).
  { exists (fun _ => true). clear. induction page; simpl; congruence. }
  unfold filterByTimeRange, time_matches.
  destruct timeRange as [tr|].
  - destruct (JS.nonempty (start tr) && JS.nonempty (end_ tr)) eqn:E.
    + apply andb_true_iff in E as [Es Ee]. split; [eexists; reflexivity|].
      intros r. rewrite filter_In. unfold inTimeRange, JS.str_ge, JS.str_le.
      rewrite andb_true_iff, !leb_lex_le. split.
      * intros [Hin Hw]. split; [exact Hin|]. intros tr' Htr _ _.
        injection Htr as <-. exact Hw.
      * intros [Hin Hw]. split; [exact Hin|]. now apply (Hw tr eq_refl).
    + split; [exact Hall|]. intros r. split; [|tauto].
      intros Hin. split; [exact Hin|]. intros tr' Htr Hs He.
      injection Htr as <-. rewrite Hs, He in E. discriminate.
  - split; [exact Hall|]. intros r. split; [|tauto].
    intros Hin. split; [exact Hin|]. intros tr' Htr. discriminate.
Qed.

(** X14.  The filters are a conjunction and keep the page order: when they
    raise nothing, a record survives exactly when it is on the page and
    meets every criterion that is set (the UTC date is the given text, the
    local weekday is the one named, the local time of day is in the window),
    a criterion that is not set excluding nothing; and the survivors are the
    page with some records left out.  In particular the date is compared in
    UTC and the day and time in the zone of the server. *)
Theorem filters_keep_exactly_the_matching_records
  (date dayOfWeek : option string) (timeRange : option TimeRange)
  (page survivors : list Note) :
  applyFilters LocalTZA date dayOfWeek timeRange page = inr survivors ->
  (forall r,
      In r survivors
      <-> In r page
          /\ date_matches date r
          /\ day_matches LocalTZA dayOfWeek r
          /\ time_matches LocalTZA timeRange r)
  /\ exists keep, survivors = filter keep page.
Proof.
  unfold applyFilters. intros H.
  destruct (filterByDate date page) as [e|l1] eqn:E1; [discriminate|].
  destruct (filterByDayOfWeek LocalTZA dayOfWeek l1) as [e|l2] eqn:E2; [discriminate|].
  injection H as <-.
  destruct (filterByDate_inr _ _ _ E1) as [[k1 Hk1] H1].
  destruct (filterByDayOfWeek_inr _ _ _ E2) as [[k2 Hk2] H2].
  destruct (filterByTimeRange_In timeRange l2) as [[k3 Hk3] H3].
  split.
  - intros r. rewrite H3, H2, H1. tauto.
  - exists (fun r => k1 r && k2 r && k3 r).
    rewrite Hk3, Hk2, Hk1. clear.
    induction page as [|x page IH]; [reflexivity|]. simpl.
    destruct (k1 x); simpl; [|exact IH].
    destruct (k2 x); simpl; [|exact IH].
    destruct (k3 x); simpl; now rewrite IH.
Qed.

Lemma In_firstn {A : Type} (n : nat) (l : list A) (x : A) :
  In x (firstn n l) -> In x l.
Proof.
  revert l. induction n as [|n IH]; intros [|y l]; simpl; try tauto.
  intros [->|H]; [now left | right; now apply IH].
Qed.

(** X15.  A successful listing returns records that the filters kept, hence
    records of the fetched page; with a limit [n > 0] it returns [min n k] of
    them, where [k] is the number of records the filters keep, and without a
    limit all [k]. *)
Theorem listing_size_and_origin
  (env : Config) (date dayOfWeek : option string) (timeRange : option TimeRange)
  (w w1 : W) (res : Response) (survivors : list Note) (limit : option Z) :
  checkHubSpotConfig env = [] ->
  serve store GET_paged w = (res, w1) ->
  ok res = true ->
  applyFilters LocalTZA date dayOfWeek timeRange (results res) = inr survivors ->
  (forall n, limit = Some n -> 0 < n) ->
  exists listed,
    result_of (run store (getSummaries LocalTZA env date dayOfWeek limit timeRange) w)
    = inr (success (Json listed))
    /\ List.length listed
       = match limit with
         | Some n => Nat.min (Z.to_nat n) (List.length survivors)
         | None => List.length survivors
         end
    /\ (forall r, In r listed -> In r survivors /\ In r (results res)).
Proof.
  intros Hcfg Hsrv Hok Hf Hn.
  assert (Hpage : forall r, In r (JS.sort byTimestampDesc survivors) ->
                            In r survivors /\ In r (results res)).
  { intros r Hr.
    apply (Permutation_in _ (sort_perm byTimestampDesc survivors)) in Hr.
    split; [exact Hr|].
    destruct (filterByDate date (results res)) as [e|l1] eqn:E1;
      unfold applyFilters in Hf; rewrite E1 in Hf; [discriminate|].
    destruct (filterByDayOfWeek LocalTZA dayOfWeek l1) as [e|l2] eqn:E2;
      [discriminate|].
    injection Hf as <-.
    apply (proj2 (filterByTimeRange_In timeRange l2)) in Hr as [Hr _].
    apply (proj2 (filterByDayOfWeek_inr _ _ _ E2)) in Hr as [Hr _].
    now apply (proj2 (filterByDate_inr _ _ _ E1)) in Hr as [Hr _]. }
  rewrite (run_getSummaries store LocalTZA env _ _ _ _ w w1 res Hcfg Hsrv Hok).
  unfold selectSummaries, filterAndSort. rewrite Hf.
  destruct limit as [n|].
  - specialize (Hn n eq_refl).
    unfold applyLimit, JS.truthy_num, JS.num_gt, num.
    replace (n =? 0) with false by (symmetry; apply Z.eqb_neq; lia).
    replace (0 <? n) with true by (symmetry; apply Z.ltb_lt; lia).
    cbn [negb andb]. rewrite slice0_firstn by lia.
    eexists. split; [reflexivity|]. split.
    + rewrite length_firstn.
      now rewrite (Permutation_length (sort_perm byTimestampDesc survivors)).
    + intros r Hr. apply Hpage. eapply In_firstn; exact Hr.
  - eexists. split; [reflexivity|]. split.
    + apply Permutation_length, sort_perm.
    + exact Hpage.
Qed.

End FilterMore.

Lemma filters_keep_exactly_the_matching_records_witness :
  In (mkNote "103" tuesday_0859 (Some (noteBody "Sync" "Weekly sync" "Cy")))
     sample_notes
  /\ date_matches (Some "2024-03-05")
       (mkNote "103" tuesday_0859 (Some (noteBody "Sync" "Weekly sync" "Cy")))
  /\ day_matches utc (Some "Tuesday")
       (mkNote "103" tuesday_0859 (Some (noteBody "Sync" "Weekly sync" "Cy")))
  /\ time_matches utc (Some (mkTimeRange "08:00" "09:00"))
       (mkNote "103" tuesday_0859 (Some (noteBody "Sync" "Weekly sync" "Cy"))).
Proof.
  destruct (filters_keep_exactly_the_matching_records utc
              (Some "2024-03-05") (Some "Tuesday") (Some (mkTimeRange "08:00" "09:00"))
              sample_notes
              [ mkNote "103" tuesday_0859 (Some (noteBody "Sync" "Weekly sync" "Cy")) ]
              eq_refl) as [Hiff _].
  apply Hiff. left. reflexivity.
Defined.

Lemma listing_size_and_origin_witness :
  exists listed,
    result_of (run crm (getSummaries utc sample_env None (Some "tuesday") (Some 5) None)
                 sample_crm)
    = inr (success (Json listed))
    /\ List.length listed = 2%nat.
Proof.
  destruct (listing_size_and_origin crm utc sample_env None (Some "tuesday") None
              sample_crm sample_crm (mkResponse true 200 "" sample_notes blank)
              [ mkNote "102" tuesday_1001 (Some (noteBody "Retro" "What went well" "Bob"));
                mkNote "103" tuesday_0859 (Some (noteBody "Sync" "Weekly sync" "Cy")) ]
              (Some 5) eq_refl eq_refl eq_refl eq_refl)
    as (listed & Hrun & Hlen & _).
  - intros n Hn. injection Hn as <-. reflexivity.
  - exists listed. split; [exact Hrun | exact Hlen].
Defined.

(* ================================================================== *)
(** * More on the time-of-day window *)
(* ================================================================== *)

Section TimeRangeMore.

Variable LocalTZA : Z -> Z.

Lemma ascii_compare_nat (c d : ascii) :
  Ascii.compare c d = Nat.compare (Ascii.nat_of_ascii c) (Ascii.nat_of_ascii d).
Proof.
  unfold Ascii.compare, Ascii.nat_of_ascii. apply Nnat.N2Nat.inj_compare.
Qed.

Lemma digit_compare (x y : Z) :
  0 <= x < 10 -> 0 <= y < 10 -> Ascii.compare (digit x) (digit y) = (x ?= y).
Proof.
  intros Hx Hy. rewrite ascii_compare_nat. unfold digit.
  rewrite !Ascii.nat_ascii_embedding by lia.
  rewrite <- Nat2Z.inj_compare. rewrite !Nat2Z.inj_add, !Z2Nat.id by lia.
  destruct (Z.compare_spec x y), (Z.compare_spec (Z.of_nat 48 + x) (Z.of_nat 48 + y));
    try reflexivity; lia.
Qed.

(** Two zero-padded numbers below 100 compare as strings the way they
    compare as numbers, whatever follows them. *)
Lemma two_digits_compare (a b : Z) (s t : string) :
  0 <= a < 100 -> 0 <= b < 100 ->
  String.compare (two_digits a ++ s) (two_digits b ++ t)
  = match a ?= b with
    | Eq => String.compare s t
    | c => c
    end.
Proof.
  intros Ha Hb. unfold two_digits. cbn [String.append String.compare].
  assert (Ha1 : 0 <= a / 10 < 10) by (split; [apply Z.div_pos | apply Z.div_lt_upper_bound]; lia).
  assert (Hb1 : 0 <= b / 10 < 10) by (split; [apply Z.div_pos | apply Z.div_lt_upper_bound]; lia).
  assert (Ha0 : 0 <= a mod 10 < 10) by (apply Z.mod_pos_bound; lia).
  assert (Hb0 : 0 <= b mod 10 < 10) by (apply Z.mod_pos_bound; lia).
  rewrite !digit_compare by assumption.
  pose proof (Z.div_mod a 10 ltac:(lia)) as Ea.
  pose proof (Z.div_mod b 10 ltac:(lia)) as Eb.
  destruct (Z.compare_spec (a / 10) (b / 10)) as [E1|E1|E1];
    destruct (Z.compare_spec (a mod 10) (b mod 10)) as [E0|E0|E0];
    destruct (Z.compare_spec a b) as [E|E|E];
    try reflexivity; lia.
Qed.

Lemma hhmm_leb (h m h' m' : Z) :
  0 <= h < 100 -> 0 <= m < 60 -> 0 <= h' < 100 -> 0 <= m' < 60 ->
  String.leb (hhmm h m) (hhmm h' m') = (minutes h m <=? minutes h' m').
Proof.
  intros Hh Hm Hh' Hm'. unfold String.leb, hhmm, minutes.
  rewrite two_digits_compare by lia.
  cbn [String.append String.compare].
  replace (Ascii.compare ":" ":") with Eq by reflexivity.
  rewrite <- (StringFacts.append_empty_r (two_digits m)).
  rewrite <- (StringFacts.append_empty_r (two_digits m')).
  rewrite two_digits_compare by lia. cbn [String.compare].
  destruct (Z.compare_spec h h') as [E1|E1|E1];
    destruct (Z.compare_spec m m') as [E0|E0|E0];
    destruct (Z.leb_spec (60 * h + m) (60 * h' + m'));
    try reflexivity; lia.
Qed.

Lemma currentTime_hhmm (ts : Z) :
  JS.valid_time ts = true ->
  currentTime LocalTZA ts
  = hhmm (JS.HourFromTime (JS.LocalTime LocalTZA ts))
         (JS.MinFromTime (JS.LocalTime LocalTZA ts)).
Proof.
  intros Hvalid. now destruct (currentTime_padded LocalTZA ts Hvalid) as (_ & _ & ->).
Qed.

(** X16.  With both bounds written as zero-padded [HH:MM], the string
    comparison of the time filter is the numeric one: a record with a valid
    timestamp is kept exactly when its local minute of the day lies between
    those of the bounds, both included. *)
Theorem padded_window_compares_minutes
  (hs ms he me : Z) (page : list Note) (r : Note) :
  0 <= hs < 100 -> 0 <= ms < 60 ->
  0 <= he < 100 -> 0 <= me < 60 ->
  JS.valid_time (engagement_timestamp r) = true ->
  (In r (filterByTimeRange LocalTZA (Some (mkTimeRange (hhmm hs ms) (hhmm he me))) page)
   <-> In r page
       /\ minutes hs ms <= minute_of_day LocalTZA (engagement_timestamp r)
          <= minutes he me).
Proof.
  intros Hhs Hms Hhe Hme Hvalid.
  unfold filterByTimeRange. cbn [start end_].
  replace (JS.nonempty (hhmm hs ms)) with true by reflexivity.
  replace (JS.nonempty (hhmm he me)) with true by reflexivity.
  cbn [andb]. rewrite filter_In.
  unfold inTimeRange, JS.str_ge, JS.str_le. cbn [start end_]. cbv zeta.
  rewrite (currentTime_hhmm _ Hvalid).
  destruct (currentTime_padded LocalTZA _ Hvalid) as (Hh & Hm & _).
  rewrite !hhmm_leb by lia.
  rewrite andb_true_iff, !Z.leb_le. unfold minute_of_day. reflexivity.
Qed.

Lemma lex_le_trans (a b c : string) : lex_le a b -> lex_le b c -> lex_le a c.
Proof.
  intros Hab. revert c. induction Hab as [s|x y s t Hlt|x s t Hst IH]; intros c Hbc.
  - constructor.
  - inversion Hbc as [| ? z ? u Hlt' | ? ? u Htu]; subst.
    + apply lex_le_less. lia.
    + now apply lex_le_less.
  - inversion Hbc as [| ? z ? u Hlt' | ? ? u Htu]; subst.
    + now apply lex_le_less.
    + apply lex_le_same. now apply IH.
Qed.

(** X17.  Windows that keep nothing or are ignored.  A window whose end is
    lexicographically before its start (such as 22:00 to 06:00) keeps no
    record; so does, for records with a valid timestamp, a start whose first
    character is above the digit 2 (such as the unpadded 9:00).  A window
    with an empty start or an empty end is not applied at all. *)
Theorem degenerate_windows (tr : TimeRange) (page : list Note) :
  (JS.nonempty (start tr) = true -> JS.nonempty (end_ tr) = true ->
   String.ltb (end_ tr) (start tr) = true ->
   filterByTimeRange LocalTZA (Some tr) page = [])
  /\ (forall (c : ascii) (rest : string),
         start tr = String c rest ->
         JS.nonempty (end_ tr) = true ->
         (Ascii.nat_of_ascii "2" < Ascii.nat_of_ascii c)%nat ->
         (forall r, In r page -> JS.valid_time (engagement_timestamp r) = true) ->
         filterByTimeRange LocalTZA (Some tr) page = [])
  /\ (JS.nonempty (start tr) = false \/ JS.nonempty (end_ tr) = false ->
      filterByTimeRange LocalTZA (Some tr) page = page).
Proof.
  assert (Hnone : forall keep : Note -> bool,
             (forall r, In r page -> keep r = false) -> filter keep page = []).
  { intros keep. induction page as [|x l IH]; intros H; [reflexivity|].
    simpl. rewrite (H x) by now left. apply IH. intros r Hr. apply H. now right. }
  split; [|split].
  - intros Hs He Hlt. unfold filterByTimeRange. rewrite Hs, He. cbn [andb].
    apply Hnone. intros r _. unfold inTimeRange, JS.str_ge, JS.str_le. cbv zeta.
    destruct (String.leb (start tr) _) eqn:E1; [|reflexivity].
    destruct (String.leb _ (end_ tr)) eqn:E2; [|reflexivity].
    apply leb_lex_le in E1, E2.
    pose proof (lex_le_trans _ _ _ E1 E2) as Hse. apply leb_lex_le in Hse.
    unfold String.ltb in Hlt. unfold String.leb in Hse.
    rewrite String.compare_antisym in Hse.
    destruct (String.compare (end_ tr) (start tr)); discriminate.
  - intros c rest Hstart He Hc Hvalid. unfold filterByTimeRange.
    rewrite Hstart, He. cbn [JS.nonempty andb].
    apply Hnone. intros r Hr. unfold inTimeRange, JS.str_ge. cbv zeta.
    rewrite Hstart.
    destruct (String.leb (String c rest) _) eqn:E1; [|reflexivity].
    exfalso. apply leb_lex_le in E1.
    rewrite (currentTime_hhmm _ (Hvalid r Hr)) in E1.
    destruct (currentTime_padded LocalTZA _ (Hvalid r Hr)) as (Hh & _ & _).
    set (h := JS.HourFromTime _) in *. unfold hhmm, two_digits in E1.
    cbn [String.append] in E1.
    assert (Hd : (Ascii.nat_of_ascii (digit (h / 10)) <= Ascii.nat_of_ascii "2")%nat).
    { unfold digit. rewrite Ascii.nat_ascii_embedding.
      - assert (h / 10 <= 2) by (apply Z.lt_succ_r, Z.div_lt_upper_bound; lia).
        change (Ascii.nat_of_ascii "2") with 50%nat.
        assert (0 <= h / 10) by (apply Z.div_pos; lia). lia.
      - assert (h / 10 < 10) by (apply Z.div_lt_upper_bound; lia).
        assert (0 <= h / 10) by (apply Z.div_pos; lia). lia. }
    inversion E1 as [| ? ? ? ? Hlt | ? ? ? Hle]; subst; lia.
  - intros H. unfold filterByTimeRange.
    destruct H as [-> | ->]; [reflexivity | now rewrite andb_false_r].
Qed.

End TimeRangeMore.

Lemma padded_window_compares_minutes_witness :
  In (mkNote "101" monday_0930 (Some (noteBody "Plan" "Budget review" "Ann")))
     (filterByTimeRange utc (Some (mkTimeRange "09:00" "10:00")) sample_notes).
Proof.
  apply (padded_window_compares_minutes utc 9 0 10 0 sample_notes
           (mkNote "101" monday_0930 (Some (noteBody "Plan" "Budget review" "Ann"))));
    try (split; [intro H; discriminate H | reflexivity]);
    try reflexivity.
  split; [left; reflexivity|].
  split; intro H; discriminate H.
Defined.

Lemma degenerate_windows_witness :
  filterByTimeRange utc (Some (mkTimeRange "22:00" "06:00")) sample_notes = []
  /\ filterByTimeRange utc (Some (mkTimeRange "9:00" "10:00")) sample_notes = []
  /\ filterByTimeRange utc (Some (mkTimeRange "09:00" "")) sample_notes = sample_notes.
Proof.
  split; [|split].
  - exact (proj1 (degenerate_windows utc (mkTimeRange "22:00" "06:00") sample_notes)
             eq_refl eq_refl eq_refl).
  - apply (proj1 (proj2 (degenerate_windows utc (mkTimeRange "9:00" "10:00")
                           sample_notes)) "9"%char ":00");
      try reflexivity.
    + apply Nat.ltb_lt. reflexivity.
    + intros r Hr. simpl in Hr.
      destruct Hr as [<-|[<-|[<-|[]]]]; reflexivity.
  - exact (proj2 (proj2 (degenerate_windows utc (mkTimeRange "09:00" "") sample_notes))
             (or_intror eq_refl)).
Defined.

(* ================================================================== *)
(** * More on the day of the week and on the query *)
(* ================================================================== *)

Section DayAndQueryMore.

Context {W : Type} (store : Store W) (LocalTZA : Z -> Z).
Context (toLowerCase : string -> string).

Lemma day_names_lowercase (j : nat) (name : string) :
  nth_error day_names j = Some name -> names_day name j.
Proof.
  unfold names_day. intros H.
  do 7 (destruct j as [|j]; [injection H as <-; reflexivity|]).
  destruct j; discriminate.
Qed.

(** X18.  The seven day names split the page: a record of the page with a
    valid timestamp is kept by the day filter for exactly one of the seven
    names, the one whose index (Sunday 0 to Saturday 6) is the weekday of the
    record in the zone of the server. *)
Theorem each_record_passes_exactly_one_day (page : list Note) (r : Note) :
  In r page ->
  JS.valid_time (engagement_timestamp r) = true ->
  exists i today,
    nth_error day_names i = Some today
    /\ JS.getDay LocalTZA (engagement_timestamp r) = Some (Z.of_nat i)
    /\ forall j name,
        nth_error day_names j = Some name ->
        exists kept,
          filterByDayOfWeek LocalTZA (Some name) page = inr kept
          /\ (In r kept <-> j = i).
Proof.
  intros Hin Hvalid.
  set (d := JS.WeekDay (JS.LocalTime LocalTZA (engagement_timestamp r))).
  assert (Hd : 0 <= d < 7) by (apply Z.mod_pos_bound; lia).
  assert (Hday : JS.getDay LocalTZA (engagement_timestamp r) = Some d)
    by (unfold JS.getDay; now rewrite Hvalid).
  destruct (nth_error day_names (Z.to_nat d)) as [today|] eqn:Htoday.
  - exists (Z.to_nat d), today. split; [exact Htoday|].
    split; [rewrite Z2Nat.id by lia; exact Hday|].
    intros j name Hj.
    rewrite (filterByDayOfWeek_named LocalTZA name j page (day_names_lowercase j name Hj)).
    eexists. split; [reflexivity|]. rewrite filter_In, Hday, Z.eqb_eq.
    split.
    + intros [_ E]. rewrite E. now rewrite Nat2Z.id.
    + intros ->. split; [exact Hin|]. rewrite Z2Nat.id by lia. reflexivity.
  - apply nth_error_None in Htoday. simpl in Htoday. lia.
Qed.




(** X20.  A request of an update that fails stops it.  When the page fetch
    of the search is refused, the handler reports the HTTP code and message
    and sends nothing else.  When the read of the target is refused, or the
    target has no body, the handler reports the error and sends no PUT after
    that read: this holds however the target was chosen, by the id given or
    by the search (the two ways are stated last). *)
Theorem update_stops_at_a_failed_read
  (env : Config) (id query title summary author : option string) (w : W) :
  checkHubSpotConfig env = [] ->
  (forall res w1,
      JS.truthy id = false -> JS.truthy query = true ->
      serve store GET_paged w = (res, w1) -> ok res = false ->
      run store (updateSharedSummary toLowerCase env id query title summary author) w
      = (inr (failure ("Error updating summary: HTTP-Code: "
                       ++ JS.toString (status res) ++ JS.LF
                       ++ "Message: " ++ message res)),
         [GET_paged], w1))
  /\ (forall targetId sent w0 getRes w1,
         run store (updateTarget toLowerCase id query) w = (inr targetId, sent, w0) ->
         serve store (GET_engagement targetId) w0 = (getRes, w1) ->
         (ok getRes = false ->
          run store (updateSharedSummary toLowerCase env id query title summary author) w
          = (inr (failure ("Error updating summary: HTTP-Code: "
                           ++ JS.toString (status getRes) ++ JS.LF
                           ++ "Message: " ++ message getRes)),
             (sent ++ [GET_engagement targetId])%list, w1))
         /\ (ok getRes = true -> metadata_body (record getRes) = None ->
             run store
               (updateSharedSummary toLowerCase env id query title summary author) w
             = (inr (failure
                  "Error updating summary: Cannot read properties of undefined (reading 'split')"),
                (sent ++ [GET_engagement targetId])%list, w1)))
  /\ (JS.truthy id = true ->
      run store (updateTarget toLowerCase id query) w = (inr (text id), [], w))
  /\ (forall res w1 first rest,
         JS.truthy id = false -> JS.truthy query = true ->
         serve store GET_paged w = (res, w1) -> ok res = true ->
         JS.sort byTimestampDesc
           (filter (matchesQuery toLowerCase (text query)) (results res))
         = first :: rest ->
         JS.nonempty (engagement_id first) = true ->
         run store (updateTarget toLowerCase id query) w
         = (inr (engagement_id first), [GET_paged], w1)).
Proof.
  intros Hcfg. split; [|split; [|split]].
  - intros res w1 Hid Hq Hsrv Hok.
    apply (run_update_no_target store toLowerCase env id query title summary author
             (HttpError (status res) (message res)) [GET_paged] w w1 Hcfg).
    unfold updateTarget. rewrite run_bind, Hid, Hq. cbn [negb andb].
    rewrite run_bind, run_fetch, Hsrv. cbn [fst snd].
    rewrite run_bind, run_check_ok, Hok. reflexivity.
  - intros targetId sent w0 getRes w1 Htarget Hget.
    pose proof (run_update_from_target store toLowerCase env id query title summary
                  author targetId sent w w0 w1 getRes Hcfg Htarget Hget) as Hrun.
    split.
    + intros Hok. rewrite Hok in Hrun. exact Hrun.
    + intros Hok Hbody. rewrite Hok, Hbody in Hrun. exact Hrun.
  - intros Hid. now apply run_updateTarget_id.
  - intros res w1 first rest Hid Hq Hsrv Hok Hsort Hne.
    rewrite (run_updateTarget_search store toLowerCase id query w w1 res
               Hid Hq Hsrv Hok).
    now rewrite Hsort, Hne.
Qed.

End DayAndQueryMore.

Lemma each_record_passes_exactly_one_day_witness :
  exists i today,
    nth_error day_names i = Some today
    /\ JS.getDay utc monday_0930 = Some (Z.of_nat i).
Proof.
  destruct (each_record_passes_exactly_one_day utc sample_notes
              (mkNote "101" monday_0930 (Some (noteBody "Plan" "Budget review" "Ann")))
              (or_introl eq_refl) eq_refl)
    as (i & today & Hname & Hday & _).
  exists i, today. split; [exact Hname | exact Hday].
Defined.


Lemma update_stops_at_a_failed_read_witness :
  run stale (updateSharedSummary sample_toLowerCase sample_env None (Some "budget")
               (Some "T") None None) sample_crm
  = (inr (failure
       ("Error updating summary: HTTP-Code: 404" ++ JS.LF
        ++ "Message: resource not found")),
     [GET_paged; GET_engagement "101"], sample_crm)
  /\ run crm (updateSharedSummary sample_toLowerCase sample_env (Some "9") None
                (Some "T") None None)
       (mkCrm [mkNote "9" monday_0930 None] 10 0)
     = (inr (failure
          "Error updating summary: Cannot read properties of undefined (reading 'split')"),
        [GET_engagement "9"], mkCrm [mkNote "9" monday_0930 None] 10 0).
Proof.
  split.
  - destruct (update_stops_at_a_failed_read stale sample_toLowerCase sample_env
                None (Some "budget") (Some "T") None None sample_crm eq_refl)
      as (_ & Hread & _ & Hsearch).
    destruct (Hread "101" [GET_paged] sample_crm not_found sample_crm
                (Hsearch (mkResponse true 200 "" sample_notes blank) sample_crm
                   (mkNote "101" monday_0930
                      (Some (noteBody "Plan" "Budget review" "Ann")))
                   [] eq_refl eq_refl eq_refl eq_refl eq_refl eq_refl)
                eq_refl) as [Hrefused _].
    exact (Hrefused eq_refl).
  - destruct (update_stops_at_a_failed_read crm sample_toLowerCase sample_env
                (Some "9") None (Some "T") None None
                (mkCrm [mkNote "9" monday_0930 None] 10 0) eq_refl)
      as (_ & Hread & Hid & _).
    destruct (Hread "9" [] (mkCrm [mkNote "9" monday_0930 None] 10 0)
                (answer (mkNote "9" monday_0930 None))
                (mkCrm [mkNote "9" monday_0930 None] 10 0)
                (Hid eq_refl) eq_refl) as [_ Hnobody].
    exact (Hnobody eq_refl eq_refl).
Defined.

(* ================================================================== *)
(** * The dispatcher *)
(* ================================================================== *)

Section DispatchFacts.

Variable LocalTZA : Z -> Z.
Variable toLowerCase : string -> string.
Variable parseInt : string -> option Z.

Variable deleteSharedSummary :
  Config -> option string -> option string -> option string -> option Z ->
  option TimeRange -> Prog ToolResult.

(** X21.  The dispatcher runs a handler only for a request that has params,
    arguments and one of the four tool names; for any other non-empty name it
    rejects the call as an unknown method.  It runs [createSharedSummary]
    only when title, summary and author are all present and non-empty, so
    that a note created through it has three non-empty fields; otherwise it
    rejects the call before anything is sent. *)
Theorem callTool_runs_only_valid_calls
  (env : Config) (request : Mcp.CallToolRequest) :
  (forall p,
      Mcp.callTool LocalTZA toLowerCase parseInt deleteSharedSummary env request = Mcp.Handled p ->
      exists pr args toolName,
        Mcp.params request = Some pr
        /\ Mcp.arguments pr = Some args
        /\ Mcp.name pr = Some toolName
        /\ In toolName tool_names
        /\ (toolName = "create_shared_summary" ->
            JS.nonempty (text (Mcp.title args)) = true
            /\ JS.nonempty (text (Mcp.summary args)) = true
            /\ JS.nonempty (text (Mcp.author args)) = true
            /\ p = createSharedSummary parseInt env (text (Mcp.title args))
                     (text (Mcp.summary args)) (text (Mcp.author args))))
  /\ (forall pr args toolName,
         Mcp.params request = Some pr ->
         Mcp.arguments pr = Some args ->
         Mcp.name pr = Some toolName ->
         JS.nonempty toolName = true ->
         (~ In toolName tool_names ->
          Mcp.callTool LocalTZA toLowerCase parseInt deleteSharedSummary env request
          = Mcp.Rejected Mcp.MethodNotFound ("Unknown tool: " ++ toolName))
         /\ (toolName = "create_shared_summary" ->
             JS.truthy (Mcp.title args) && JS.truthy (Mcp.summary args)
             && JS.truthy (Mcp.author args) = false ->
             Mcp.callTool LocalTZA toLowerCase parseInt deleteSharedSummary env request
             = Mcp.Rejected Mcp.InvalidParams
                 "Missing required arguments: title, summary, and author")).
Proof.
  unfold Mcp.callTool, tool_names. split.
  - intros p H.
    destruct (Mcp.params request) as [pr|]; [|discriminate].
    destruct (JS.truthy (Mcp.name pr)) eqn:Hname; [|discriminate]. cbn [negb] in H.
    destruct (Mcp.arguments pr) as [args|] eqn:Hargs; [|discriminate].
    destruct (Mcp.name pr) as [toolName|] eqn:Htool; [|discriminate].
    cbn [text] in H.
    exists pr, args, toolName.
    split; [reflexivity|]. split; [exact Hargs|]. split; [exact Htool|].
    destruct (String.eqb_spec toolName "create_shared_summary") as [->|Hc].
    + split; [now left|]. intros _.
      destruct (JS.truthy (Mcp.title args)) eqn:Et; [|discriminate].
      destruct (JS.truthy (Mcp.summary args)) eqn:Es; [|discriminate].
      destruct (JS.truthy (Mcp.author args)) eqn:Ea; [|discriminate].
      cbn [negb orb] in H. injection H as <-.
      destruct (Mcp.title args) as [t|], (Mcp.summary args) as [s|],
               (Mcp.author args) as [a|]; try discriminate.
      repeat split; assumption.
    + split; [|intros E; contradiction].
      destruct (String.eqb_spec toolName "get_summaries") as [->|];
        [right; now left|].
      destruct (String.eqb_spec toolName "update_shared_summary") as [->|];
        [right; right; now left|].
      destruct (String.eqb_spec toolName "delete_shared_summary") as [->|];
        [right; right; right; now left | discriminate].
  - intros pr args toolName -> -> -> Hne. cbn [JS.truthy text]. rewrite Hne.
    cbn [negb]. split.
    + intros Hnot.
      destruct (String.eqb_spec toolName "create_shared_summary") as [->|];
        [elim Hnot; now left|].
      destruct (String.eqb_spec toolName "get_summaries") as [->|];
        [elim Hnot; right; now left|].
      destruct (String.eqb_spec toolName "update_shared_summary") as [->|];
        [elim Hnot; right; right; now left|].
      destruct (String.eqb_spec toolName "delete_shared_summary") as [->|];
        [elim Hnot; right; right; right; now left | reflexivity].
    + intros -> Hmissing. cbn [String.eqb Ascii.eqb Bool.eqb].
      destruct (JS.truthy (Mcp.title args)), (JS.truthy (Mcp.summary args)),
               (JS.truthy (Mcp.author args)); try discriminate; reflexivity.
Qed.

End DispatchFacts.

Lemma callTool_runs_only_valid_calls_witness :
  Mcp.callTool utc sample_toLowerCase sample_parseInt (handleDeleteSharedSummary utc) sample_env
    (Mcp.mkRequest
       (Some (Mcp.mkParams (Some "create_shared_summary")
                (Some (Mcp.mkArguments (Some "T") (Some "") (Some "A")
                         None None None None None None)))))
  = Mcp.Rejected Mcp.InvalidParams
      "Missing required arguments: title, summary, and author"
  /\ Mcp.callTool utc sample_toLowerCase sample_parseInt (handleDeleteSharedSummary utc) sample_env
       (Mcp.mkRequest
          (Some (Mcp.mkParams (Some "list_summaries")
                   (Some (Mcp.mkArguments None None None None None None None None None)))))
     = Mcp.Rejected Mcp.MethodNotFound "Unknown tool: list_summaries".
Proof.
  split.
  - destruct (callTool_runs_only_valid_calls utc sample_toLowerCase sample_parseInt
                (handleDeleteSharedSummary utc)
                sample_env
                (Mcp.mkRequest
                   (Some (Mcp.mkParams (Some "create_shared_summary")
                            (Some (Mcp.mkArguments (Some "T") (Some "") (Some "A")
                                     None None None None None None))))))
      as [_ H].
    exact (proj2 (H _ _ _ eq_refl eq_refl eq_refl eq_refl) eq_refl eq_refl).
  - destruct (callTool_runs_only_valid_calls utc sample_toLowerCase sample_parseInt
                (handleDeleteSharedSummary utc)
                sample_env
                (Mcp.mkRequest
                   (Some (Mcp.mkParams (Some "list_summaries")
                            (Some (Mcp.mkArguments None None None None None None None
                                     None None))))))
      as [_ H].
    apply (proj1 (H _ _ _ eq_refl eq_refl eq_refl eq_refl)).
    unfold tool_names. simpl. intros Hin.
    repeat (destruct Hin as [Hin|Hin]; [discriminate Hin|]). exact Hin.
Defined.
